(** * risk-analytics-dashboard: cache, event bus, gateway and dashboard hook

    A shallow embedding of [src/services/riskAnalyticsAPI.ts] (class
    [RiskAnalyticsAPI]) and of [src/hooks/useDashboardData.ts], followed by
    the properties of the specification that concern them.

    Conventions of the embedding.
    - [Date.now()] is an integer number of milliseconds, a [Z]; every
      synchronous function body reads the clock once and receives it as the
      argument [now].
    - A JavaScript [number] is an exact rational ([Q]) where the code's
      binary64 arithmetic is exact or the property does not depend on it; the
      expiry of a cache entry, which the code computes as a binary64 sum, is
      also modelled in binary64 ([Cache64]).
    - Values of type [any] are elements of [value]; [null] is [VNull].
    - A promise is represented by the way it settles ([settled]).
    - Whatever the code draws from [Math.random] or formats with [Date] is
      supplied by the class [Platform].
    - [marketData.json] is not part of the sources: it is the record
      [MarketData], a parameter of the gateway functions. *)

From Stdlib Require Import ZArith QArith Qround Lqa String List.
From Stdlib Require Floats.
From stdpp Require Import gmap strings list fin_maps pretty.

Open Scope Z_scope.
Set Warnings "-register-all".

(** ** JavaScript values *)

Module Js.

Inductive value : Type :=
| VUndefined
| VNull
| VBool (b : bool)
| VNum (q : Q)
| VStr (s : string)
| VArr (elements : list value)
| VObj (props : list (string * value))
| VError (message : string).

(** ToBoolean. *)
Definition truthy (v : value) : bool :=
  match v with
  | VUndefined | VNull => false
  | VBool b => b
  | VNum q => negb (Qeq_bool q 0)
  | VStr s => negb (String.eqb s "")
  | VArr _ | VObj _ | VError _ => true
  end.

Definition is_array (v : value) : bool :=
  match v with VArr _ => true | _ => false end.

Definition nullish (v : value) : bool :=
  match v with VUndefined | VNull => true | _ => false end.

(** [a || b]. *)
Definition or_else (a b : value) : value := if truthy a then a else b.

(** Own properties of an object literal, in insertion order. *)
Fixpoint lookup_prop (name : string) (props : list (string * value)) : value :=
  match props with
  | [] => VUndefined
  | (k, v) :: rest => if String.eqb k name then v else lookup_prop name rest
  end.

(** [{...props, name: v}]. *)
Fixpoint set_prop (name : string) (v : value) (props : list (string * value))
  : list (string * value) :=
  match props with
  | [] => [(name, v)]
  | (k, w) :: rest =>
      if String.eqb k name then (k, v) :: rest else (k, w) :: set_prop name v rest
  end.

(** How a promise settles; a thrown value is the reason of a rejection. *)
Inductive settled (A : Type) : Type :=
| Fulfilled (result : A)
| Rejected (reason : value).
Arguments Fulfilled {A} result.
Arguments Rejected {A} reason.

Definition is_rejected {A} (p : settled A) : bool :=
  match p with Rejected _ => true | Fulfilled _ => false end.

(** [v.name]: a [TypeError] on [null] and [undefined], the own property of an
    object literal, [message] of an error, [undefined] elsewhere (none of the
    names read by the code is a property of a primitive or of an array). *)
Definition get (name : string) (v : value) : settled value :=
  match v with
  | VUndefined =>
      Rejected (VError ("Cannot read properties of undefined (reading '" +:+ name +:+ "')"))
  | VNull =>
      Rejected (VError ("Cannot read properties of null (reading '" +:+ name +:+ "')"))
  | VObj props => Fulfilled (lookup_prop name props)
  | VError m => Fulfilled (if String.eqb name "message" then VStr m else VUndefined)
  | _ => Fulfilled VUndefined
  end.

(** [v?.name]. *)
Definition get_opt (name : string) (v : value) : value :=
  match get name v with
  | Fulfilled w => w
  | Rejected _ => VUndefined
  end.

(** [v === s] for a string literal [s]. *)
Definition strict_eq_str (v : value) (s : string) : bool :=
  match v with VStr s' => String.eqb s' s | _ => false end.

(** [hay.includes(needle)]. *)
Fixpoint includes (needle hay : string) : bool :=
  String.prefix needle hay
  || match hay with
     | EmptyString => false
     | String _ rest => includes needle rest
     end.

End Js.
Import Js.

(** What the code takes from the runtime: date formatting and random draws. *)
Class Platform := {
  toISOString : Z -> string;          (* new Date(now).toISOString() *)
  toLocaleTimeString : Z -> string;   (* toLocaleTimeString('en-US', {hour12: false}) *)
  jitter : value -> Q -> value;       (* x + (Math.random() - 0.5) * k *)
  randomScore : value;                (* Math.random() * 100 *)
  randomPartition : Z;                (* Math.floor(Math.random() * 4) *)
  pingLatency : string -> Z;          (* Math.random() * 20 + 5, per service *)
  pingUp : string -> bool;            (* Math.random() > 0.05, per service *)
  pingResponseTime : string -> Z      (* Math.floor(Math.random() * 20 + 5) *)
}.

(** ** Expiring cache: [setCache], its cleanup timer and [getCache] *)

Module Cache.

(** An entry [{ data, timestamp, ttl }]; [ttl] is the instant of expiry. *)
Record entry := Entry { data : value; timestamp : Z; ttl : Q }.

Abbreviation store := (gmap string entry).

(** [Date.now() < cached.ttl] *)
Definition before (now : Z) (e : entry) : bool :=
  if Qlt_le_dec (inject_Z now) (ttl e) then true else false.

(** [Date.now() > cached.ttl] *)
Definition after (now : Z) (e : entry) : bool :=
  if Qlt_le_dec (ttl e) (inject_Z now) then true else false.

(** The synchronous part of [setCache]; a caller that leaves [ttlSeconds] out
    passes the default, 30. *)
Definition setCache (key : string) (d : value) (ttlSeconds : Q) (now : Z)
  (c : store) : store :=
  let ttl := (inject_Z now + ttlSeconds * 1000)%Q in
  <[key := Entry d now ttl]> c.

(** The callback that [setCache] hands to [setTimeout]; it runs at [now]. *)
Definition cleanup (key : string) (now : Z) (c : store) : store :=
  match c !! key with
  | Some cached => if after now cached then delete key c else c
  | None => c
  end.

Definition getCache (key : string) (now : Z) (c : store) : value * store :=
  match c !! key with
  | Some cached =>
      if before now cached then (data cached, c) else (VNull, delete key c)
  | None => (VNull, c)
  end.

(** Timer callbacks of earlier [setCache] calls that fire, each for its key at
    its own instant. *)
Definition cleanups (fired : list (string * Z)) (c : store) : store :=
  fold_left (fun c kn => cleanup (fst kn) (snd kn) c) fired c.

End Cache.

(** ** Topic event bus: [subscribeToKafkaTopic] and [emitKafkaEvent] *)

Module Bus.

(** A [Function] stored in the listener arrays, named by its identity. *)
Definition callback := nat.

Record KafkaMessage := {
  topic : string;
  partition : Z;
  offset : Z;
  timestamp : string;
  key : string;
  value : Js.value
}.

(** [eventListeners]: one array of callbacks per topic. The array of a topic
    is created once and only ever pushed to, so the map entry stands for the
    array object itself. *)
Abbreviation listeners := (gmap string (list callback)).

(** [eventListeners.get(t) || []] *)
Definition registered (ls : listeners) (t : string) : list callback :=
  default [] (ls !! t).

Definition subscribeToKafkaTopic (t : string) (cb : callback) (ls : listeners)
  : listeners :=
  let ls1 := match ls !! t with None => <[t := []]> ls | Some _ => ls end in
  <[t := registered ls1 t ++ [cb]]> ls1.

(** What running a callback does, as far as the bus can see: the calls it
    makes to [subscribeToKafkaTopic] (the only synchronous public method that
    touches the bus) and the value it throws, if any. *)
Record reaction := {
  subscribed : list (string * callback);
  thrown : option Js.value
}.

(** The callbacks themselves: [run cb m w] is the call [cb(m)] in the state
    [w] of whatever the callbacks close over. *)
Class Callbacks (W : Type) := run : callback -> KafkaMessage -> W -> W * reaction.

Definition subscribe_all (subs : list (string * callback)) (ls : listeners)
  : listeners :=
  fold_left (fun ls s => subscribeToKafkaTopic (fst s) (snd s) ls) subs ls.

(** One call made by [forEach]. *)
Record delivery := {
  position : nat;
  target : callback;
  received : KafkaMessage;
  raised : option Js.value
}.

Record emitted (W : Type) := {
  deliveries : list delivery;
  after_listeners : listeners;
  after_world : W;
  completion : option Js.value   (* [Some r]: the publish threw [r] *)
}.
Arguments deliveries {W} _.
Arguments after_listeners {W} _.
Arguments after_world {W} _.
Arguments completion {W} _.

(** [Array.prototype.forEach] on the array of topic [t]: the length is read
    once, before the first call; index [k] is then read from the array as it
    is when its turn comes; [remaining] is [len - k]. A callback that throws
    ends the loop. *)
Fixpoint forEach {W} {callbacks : Callbacks W} (remaining k : nat) (t : string)
  (m : KafkaMessage) (ls : listeners) (w : W) : emitted W :=
  match remaining with
  | O => {| deliveries := []; after_listeners := ls; after_world := w;
            completion := None |}
  | S remaining' =>
      match registered ls t !! k with
      | None => forEach remaining' (S k) t m ls w
      | Some cb =>
          let '(w', r) := run cb m w in
          let ls' := subscribe_all (subscribed r) ls in
          let d := {| position := k; target := cb; received := m;
                      raised := thrown r |} in
          match thrown r with
          | Some reason =>
              {| deliveries := [d]; after_listeners := ls'; after_world := w';
                 completion := Some reason |}
          | None =>
              let rest := forEach remaining' (S k) t m ls' w' in
              {| deliveries := d :: deliveries rest;
                 after_listeners := after_listeners rest;
                 after_world := after_world rest;
                 completion := completion rest |}
          end
      end
  end.

Definition make_message {platform : Platform} (t : string) (d : Js.value) (now : Z)
  : KafkaMessage :=
  {| topic := t;
     partition := randomPartition;
     offset := now;
     timestamp := toISOString now;
     key := t +:+ "_" +:+ pretty now;
     value := d |}.

Definition emitKafkaEvent {W} {platform : Platform} {callbacks : Callbacks W} (t : string)
  (d : Js.value) (now : Z) (ls : listeners) (w : W) : emitted W :=
  let message := make_message t d now in
  let listeners := registered ls t in
  forEach (length listeners) 0 t message ls w.

(** The shape of one publish over the array [arr]: starting at index [k],
    each callback is called in turn until one of them throws or the array is
    exhausted. *)
Inductive delivered (arr : list callback) (m : KafkaMessage)
  : nat -> list delivery -> option Js.value -> Prop :=
| delivered_end k :
    (length arr <= k)%nat ->
    delivered arr m k [] None
| delivered_throw k cb reason :
    arr !! k = Some cb ->
    delivered arr m k
      [{| position := k; target := cb; received := m; raised := Some reason |}]
      (Some reason)
| delivered_next k cb ds c :
    arr !! k = Some cb ->
    delivered arr m (S k) ds c ->
    delivered arr m k
      ({| position := k; target := cb; received := m; raised := None |} :: ds) c.

End Bus.

(** ** Source gateway: metrics, queries, lambda functions, health probes *)

Module Gateway.

(** The contents of [src/data/marketData.json], which the sources import but
    do not include: a parameter of the gateway functions. The fields are the
    ones the class reads; the rows on which the code spreads or reads
    properties are object literals, and [portfolioBreakdown] is an array (an
    ordered sequence in the specification's Snapshot, [any[]] in the hook). *)
Module marketData.
Record t := {
  realTimeMetrics : list (string * value);
  varHistoryData : list (list (string * value));
  sectorExposure : list (list (string * value));
  riskAlerts : list (list (string * value));
  portfolioBreakdown : list value;
  systemHealth : list (string * value)
}.
End marketData.
Abbreviation MarketData := marketData.t.

(** A promise together with the instant at which it settles. *)
Record promise := { settles_at : Z; outcome : settled value }.

(** The rejection that comes first in time; among rejections of the same
    instant, the one of the earlier member. *)
Fixpoint earliest_rejection (ps : list promise) : option (Z * value) :=
  match ps with
  | [] => None
  | p :: rest =>
      match outcome p, earliest_rejection rest with
      | Rejected r, Some (t', r') =>
          if t' <? settles_at p then Some (t', r') else Some (settles_at p, r)
      | Rejected r, None => Some (settles_at p, r)
      | Fulfilled _, e => e
      end
  end.

Definition fulfilment (p : promise) : value :=
  match outcome p with Fulfilled v => v | Rejected _ => VUndefined end.

(** [Promise.all]: rejects with the reason of the first member that rejects,
    otherwise fulfils with the members' values in the order of the array. *)
Definition Promise_all (ps : list promise) : settled (list value) :=
  match earliest_rejection ps with
  | Some (_, r) => Rejected r
  | None => Fulfilled (map fulfilment ps)
  end.

Definition cacheKey : string := "realtime_metrics".

(** [fetchRealTimeMetrics], called at [now]; on a miss the simulated request
    takes 12 ms and the result is cached for 5 seconds. *)
Definition fetchRealTimeMetrics {platform : Platform} (md : MarketData) (now : Z)
  (c : Cache.store) : promise * Cache.store :=
  let '(cached, c1) := Cache.getCache cacheKey now c in
  if truthy cached then
    ({| settles_at := now; outcome := Fulfilled cached |}, c1)
  else
    let later := now + 12 in
    let baseMetrics := marketData.realTimeMetrics md in
    let metrics :=
      VObj (set_prop "timestamp" (VStr (toISOString later))
           (set_prop "portfolioValue"
              (jitter (lookup_prop "portfolioValue" baseMetrics) 500000)
           (set_prop "sharpeRatio"
              (jitter (lookup_prop "sharpeRatio" baseMetrics) (1 # 10))
           (set_prop "valueAtRisk"
              (jitter (lookup_prop "valueAtRisk" baseMetrics) 100000)
              baseMetrics)))) in
    ({| settles_at := later; outcome := Fulfilled metrics |},
     Cache.setCache cacheKey metrics 5 later c1).

(** [executeGraphQLQuery]; the variables are not read. *)
Definition executeGraphQLQuery {platform : Platform} (md : MarketData) (query : string)
  (now : Z) : promise :=
  let later := now + 8 in
  let result :=
    if includes "varHistory" query then
      VObj [("data", VObj [("varHistory",
        VArr (map (fun item =>
                     VObj (set_prop "var" (jitter (lookup_prop "var" item) 50000) item))
                  (marketData.varHistoryData md)))])]
    else if includes "sectorExposure" query then
      VObj [("data", VObj [("sectorExposure",
        VArr (map (fun sector =>
                     VObj (set_prop "lastUpdated" (VStr (toISOString later))
                          (set_prop "exposure"
                             (jitter (lookup_prop "exposure" sector) 2) sector)))
                  (marketData.sectorExposure md)))])]
    else VObj [("data", VNull)] in
  {| settles_at := later; outcome := Fulfilled result |}.

Definition response (body : list (string * value)) : value :=
  VObj [("statusCode", VNum 200); ("body", VObj body)].

(** [alert => alert.status === 'ACTIVE'] *)
Definition is_active (alert : list (string * value)) : bool :=
  strict_eq_str (lookup_prop "status" alert) "ACTIVE".

(** [invokeLambdaFunction]; the payload is not read. *)
Definition invokeLambdaFunction {platform : Platform} (md : MarketData)
  (functionName : string) (payload : value) (now : Z) : promise :=
  let later := now + 5 in
  let result :=
    if String.eqb functionName "RISK_CALCULATION" then
      Fulfilled (response
        [("calculatedAt", VStr (toISOString later));
         ("riskScore", randomScore);
         ("recommendation", VStr "HOLD")])
    else if String.eqb functionName "PORTFOLIO_ANALYSIS" then
      Fulfilled (response
        [("analysis", VArr (marketData.portfolioBreakdown md));
         ("optimizationSuggestions",
          VArr [VStr "Rebalance technology exposure";
                VStr "Increase fixed income allocation"])])
    else if String.eqb functionName "ALERT_PROCESSOR" then
      Fulfilled (response
        [("alerts", VArr (map VObj (List.filter is_active (marketData.riskAlerts md))));
         ("processedAt", VStr (toISOString later))])
    else
      Rejected (VError ("Unknown Lambda function: " +:+ functionName)) in
  {| settles_at := later; outcome := result |}.

Definition pingService {platform : Platform} (serviceName endpoint : string) (now : Z)
  : promise :=
  {| settles_at := now + pingLatency serviceName;
     outcome := Fulfilled (VObj
       [("service", VStr serviceName);
        ("status", VStr (if pingUp serviceName then "UP" else "DOWN"));
        ("responseTime", VNum (inject_Z (pingResponseTime serviceName)));
        ("endpoint", VStr endpoint)]) |}.

Definition latest (ps : list promise) (now : Z) : Z :=
  fold_right (fun p t => Z.max (settles_at p) t) now ps.

Definition healthCheck {platform : Platform} (md : MarketData) (now : Z) : promise :=
  let pings :=
    [pingService "FastAPI" "https://risk-api.fintech-platform.com/health" now;
     pingService "GraphQL" "https://graphql.fintech-platform.com/health" now;
     pingService "TimescaleDB" "timescale-cluster.fintech-platform.com:5432" now;
     pingService "Redis" "redis-cluster.fintech-platform.com:6379" now] in
  let later := latest pings now in
  {| settles_at := later;
     outcome :=
       match Promise_all pings with
       | Fulfilled checks =>
           Fulfilled (VObj (set_prop "services" (VArr checks)
                           (set_prop "lastChecked" (VStr (toISOString later))
                              (marketData.systemHealth md))))
       | Rejected r => Rejected r
       end |}.

(** The object that [getAllDashboardData] returns. *)
Record DashboardData := {
  metrics : value;
  varHistory : value;
  sectorExposure : value;
  riskAlerts : value;
  portfolioBreakdown : value;
  systemHealth : value
}.

Definition varHistoryQuery : string := "
          query GetVarHistory($timeframe: String!) {
            varHistory(timeframe: $timeframe) {
              timestamp
              var
              expected
              confidence
            }
          }
        ".

Definition sectorExposureQuery : string := "
          query GetSectorExposure {
            sectorExposure {
              sector
              exposure
              limit
              value
              lastUpdated
            }
          }
        ".

(** [const [a, b, ...] = values]: the element at the index, [undefined] when
    there is none. *)
Definition element (i : nat) (values : list value) : value :=
  nth i values VUndefined.

(** The body of the [try] block once the six calls have been issued:
    [await Promise.all([...])], the destructuring and the object literal. The
    [catch] clause rethrows, so a rejection of the join or a [TypeError] of
    the literal is the rejection of the whole call. *)
Definition assemble (members : list promise) : settled DashboardData :=
  match Promise_all members with
  | Rejected r => Rejected r
  | Fulfilled values =>
      let metrics := element 0 values in
      let varData := element 1 values in
      let sectorData := element 2 values in
      let alerts := element 3 values in
      let portfolio := element 4 values in
      let health := element 5 values in
      match get "data" varData with
      | Rejected r => Rejected r
      | Fulfilled vd =>
      match get "data" sectorData with
      | Rejected r => Rejected r
      | Fulfilled sd =>
      match get "body" alerts with
      | Rejected r => Rejected r
      | Fulfilled ab =>
      match get "body" portfolio with
      | Rejected r => Rejected r
      | Fulfilled pb =>
          Fulfilled
            {| metrics := metrics;
               varHistory := or_else (get_opt "varHistory" vd) (VArr []);
               sectorExposure := or_else (get_opt "sectorExposure" sd) (VArr []);
               riskAlerts := or_else (get_opt "alerts" ab) (VArr []);
               portfolioBreakdown := or_else (get_opt "analysis" pb) (VArr []);
               systemHealth := health |}
      end end end end
  end.

(** [getAllDashboardData], called at [now] on the cache [c]. *)
Definition getAllDashboardData {platform : Platform} (md : MarketData) (now : Z)
  (c : Cache.store) : settled DashboardData * Cache.store :=
  let '(metrics, c') := fetchRealTimeMetrics md now c in
  (assemble
     [metrics;
      executeGraphQLQuery md varHistoryQuery now;
      executeGraphQLQuery md sectorExposureQuery now;
      invokeLambdaFunction md "ALERT_PROCESSOR" (VObj []) now;
      invokeLambdaFunction md "PORTFOLIO_ANALYSIS" (VObj []) now;
      healthCheck md now],
   c').

(** The names [invokeLambdaFunction] dispatches on. *)
Definition lambdaFunctions : list string :=
  ["RISK_CALCULATION"; "PORTFOLIO_ANALYSIS"; "ALERT_PROCESSOR"].

(** [v.name?.prop], for a [v] that is neither [null] nor [undefined]. *)
Definition upstream (name prop : string) (v : value) : value :=
  get_opt prop (get_opt name v).

End Gateway.

(** ** The dashboard hook: [useDashboardData] *)

Module Hook.

(** [interface DashboardData] *)
Record DashboardData := {
  metrics : value;
  varHistory : list value;
  sectorExposure : list value;
  riskAlerts : list value;
  portfolioBreakdown : list value;
  systemHealth : value
}.

(** The five [useState] cells; a [Date] is its instant. *)
Record state := {
  data : option DashboardData;
  loading : bool;
  error : option string;
  lastUpdated : option Z;
  isRealTimeConnected : bool
}.

Definition initial : state :=
  {| data := None; loading := true; error := None; lastUpdated := None;
     isRealTimeConnected := false |}.

(** [setData(updater)] *)
Definition setData (updater : option DashboardData -> option DashboardData)
  (s : state) : state :=
  {| data := updater (data s); loading := loading s; error := error s;
     lastUpdated := lastUpdated s; isRealTimeConnected := isRealTimeConnected s |}.

Definition setLoading (b : bool) (s : state) : state :=
  {| data := data s; loading := b; error := error s;
     lastUpdated := lastUpdated s; isRealTimeConnected := isRealTimeConnected s |}.

Definition setError (e : option string) (s : state) : state :=
  {| data := data s; loading := loading s; error := e;
     lastUpdated := lastUpdated s; isRealTimeConnected := isRealTimeConnected s |}.

Definition setLastUpdated (d : Z) (s : state) : state :=
  {| data := data s; loading := loading s; error := error s;
     lastUpdated := Some d; isRealTimeConnected := isRealTimeConnected s |}.

Definition setIsRealTimeConnected (b : bool) (s : state) : state :=
  {| data := data s; loading := loading s; error := error s;
     lastUpdated := lastUpdated s; isRealTimeConnected := b |}.

(** [err instanceof Error ? err.message : 'Failed to load data'] *)
Definition message_of (err : value) : string :=
  match err with
  | VError m => m
  | _ => "Failed to load data"
  end.

(** [loadData]; [dashboardData] is how [riskAPI.getAllDashboardData()]
    settles, seen at the type the hook gives it, and [now] the instant at
    which it does. *)
Definition loadData (dashboardData : settled DashboardData) (now : Z)
  (s : state) : state :=
  let s := setError None s in
  let s :=
    match dashboardData with
    | Fulfilled d =>
        setIsRealTimeConnected true
          (setLastUpdated now (setData (fun _ => Some d) s))
    | Rejected err =>
        setIsRealTimeConnected false (setError (Some (message_of err)) s)
    end in
  setLoading false s.

Definition refreshData (dashboardData : settled DashboardData) (now : Z)
  (s : state) : state :=
  loadData dashboardData now (setLoading true s).

(** The callback of the ['risk_alerts'] subscription; [payload] holds the
    properties of [message.value], [now] is the instant of the update. *)
Definition onRiskAlert {platform : Platform} (payload : list (string * value)) (now : Z)
  (s : state) : state :=
  setData (fun prevData =>
    match prevData with
    | None => None
    | Some prevData =>
        let newAlert :=
          VObj [("id", VStr ("ALERT_" +:+ pretty now));
                ("timestamp", VStr (toISOString now));
                ("time", VStr (toLocaleTimeString now));
                ("symbol", lookup_prop "symbol" payload);
                ("alert", lookup_prop "alertType" payload);
                ("severity", lookup_prop "severity" payload);
                ("status", VStr "ACTIVE");
                ("description", lookup_prop "description" payload)] in
        Some {| metrics := metrics prevData;
                varHistory := varHistory prevData;
                sectorExposure := sectorExposure prevData;
                riskAlerts := newAlert :: firstn 9 (riskAlerts prevData);
                portfolioBreakdown := portfolioBreakdown prevData;
                systemHealth := systemHealth prevData |}
    end) s.

(** A burst of alert events, oldest first, each with its instant. *)
Definition onRiskAlerts {platform : Platform}
  (events : list (list (string * value) * Z)) (s : state) : state :=
  fold_left (fun s e => onRiskAlert (fst e) (snd e) s) events s.

(** One tick of [metricsInterval]; [newMetrics] is how
    [riskAPI.fetchRealTimeMetrics()] settles. *)
Definition metricsTick (newMetrics : settled value) (now : Z) (s : state)
  : state :=
  match newMetrics with
  | Fulfilled newMetrics =>
      setLastUpdated now
        (setData (fun prevData =>
           match prevData with
           | None => None
           | Some prevData =>
               Some {| metrics := newMetrics;
                       varHistory := varHistory prevData;
                       sectorExposure := sectorExposure prevData;
                       riskAlerts := riskAlerts prevData;
                       portfolioBreakdown := portfolioBreakdown prevData;
                       systemHealth := systemHealth prevData |}
           end) s)
  | Rejected _ => s   (* console.warn('Metrics update failed:', err) *)
  end.

(** What the second effect leaves behind outside React: the running
    intervals and the listeners of the bus. *)
Record outside := {
  intervals : list string;
  bus : Bus.listeners
}.

(** The body of the second effect, run with the current [data]; [onMarket]
    and [onAlert] are the two closures it creates. [subscribeToKafkaTopic]
    returns nothing, so [unsubscribeMarket] and [unsubscribeAlerts] are
    [undefined]. *)
Definition effect (d : option DashboardData) (onMarket onAlert : Bus.callback)
  (o : outside) : outside :=
  match d with
  | None => o
  | Some _ =>
      {| intervals :=
           intervals o ++ ["healthCheckInterval"; "metricsInterval"; "varDataInterval"];
         bus := Bus.subscribeToKafkaTopic "risk_alerts" onAlert
                  (Bus.subscribeToKafkaTopic "market_data" onMarket (bus o)) |}
  end.

Definition clearInterval (name : string) (l : list string) : list string :=
  List.filter (fun n => negb (String.eqb n name)) l.

(** The cleanup function the effect returns (when it returned one). *)
Definition cleanup (d : option DashboardData) (o : outside) : outside :=
  match d with
  | None => o
  | Some _ =>
      {| intervals :=
           clearInterval "varDataInterval"
             (clearInterval "metricsInterval"
                (clearInterval "healthCheckInterval" (intervals o)));
         bus := bus o |}
  end.

End Hook.

(** ** Substrings *)

Module Text.

(** [needle] occurs in [hay]. *)
Definition occurs_in (needle hay : string) : Prop :=
  exists before after, hay = before +:+ needle +:+ after.

End Text.

(** ** The simulated market stream: [initializeKafkaStream] *)

Module Stream.

Definition symbols : list string :=
  ["AAPL"; "GOOGL"; "MSFT"; "TSLA"; "NVDA"; "AMZN"; "META"; "NFLX"].

(** [getRandomSymbol], for the draw [r] of [Math.random()]:
    [symbols[Math.floor(r * symbols.length)]]. *)
Definition getRandomSymbol (r : Q) : value :=
  let i := Qfloor (r * inject_Z (Z.of_nat (length symbols))) in
  if i <? 0 then VUndefined
  else match symbols !! Z.to_nat i with
       | Some s => VStr s
       | None => VUndefined
       end.

(** The payload built by the interval callback from three draws; the price
    is the exact value of [r * 1000 + 100], which the code rounds to
    binary64. *)
Definition marketEvent {platform : Platform} (rSymbol rPrice rVolume : Q)
  (now : Z) : value :=
  VObj [("symbol", getRandomSymbol rSymbol);
        ("price", VNum (rPrice * 1000 + 100));
        ("volume", VNum (inject_Z (Qfloor (rVolume * 100000))));
        ("timestamp", VStr (toISOString now))].

(** One firing of the interval set up by [initializeKafkaStream]. *)
Definition streamTick {W} {platform : Platform} {callbacks : Bus.Callbacks W}
  (rSymbol rPrice rVolume : Q) (now : Z) (ls : Bus.listeners) (w : W)
  : Bus.emitted W :=
  Bus.emitKafkaEvent "market_data" (marketEvent rSymbol rPrice rVolume now)
    now ls w.

End Stream.

(** ** [queryTimescaleDB], and the metrics object of a miss *)

Module Timescale.
Import Gateway.

(** [queryTimescaleDB]; the parameters are not read. *)
Definition queryTimescaleDB (md : MarketData) (sql : string) (now : Z)
  : promise :=
  {| settles_at := now + 15;
     outcome :=
       Fulfilled
         (if includes "var_history" sql then
            VArr (map VObj (marketData.varHistoryData md))
          else if includes "risk_alerts" sql then
            VArr (map VObj (marketData.riskAlerts md))
          else if includes "portfolio_snapshots" sql then
            VArr (marketData.portfolioBreakdown md)
          else VArr []) |}.

(** The object a miss builds at the instant [later]. *)
Definition freshMetrics {platform : Platform} (md : MarketData) (later : Z)
  : list (string * value) :=
  let baseMetrics := marketData.realTimeMetrics md in
  set_prop "timestamp" (VStr (toISOString later))
    (set_prop "portfolioValue"
       (jitter (lookup_prop "portfolioValue" baseMetrics) 500000)
    (set_prop "sharpeRatio"
       (jitter (lookup_prop "sharpeRatio" baseMetrics) (1 # 10))
    (set_prop "valueAtRisk"
       (jitter (lookup_prop "valueAtRisk" baseMetrics) 100000)
       baseMetrics))).

End Timescale.

(** ** The other callbacks and timers of [useDashboardData] *)

Module Loops.
Import Hook.

(** The alert record built by the ['risk_alerts'] callback. *)
Definition newAlert {platform : Platform} (payload : list (string * value))
  (now : Z) : value :=
  VObj [("id", VStr ("ALERT_" +:+ pretty now));
        ("timestamp", VStr (toISOString now));
        ("time", VStr (toLocaleTimeString now));
        ("symbol", lookup_prop "symbol" payload);
        ("alert", lookup_prop "alertType" payload);
        ("severity", lookup_prop "severity" payload);
        ("status", VStr "ACTIVE");
        ("description", lookup_prop "description" payload)].

(** [{...v}]: the own enumerable properties of [v]. *)
Definition spread (v : value) : list (string * value) :=
  match v with
  | VObj props => props
  | VArr elements => imap (fun i x => (pretty i, x)) elements
  | VStr s =>
      imap (fun i c => (pretty i, VStr (String c EmptyString)))
        (list_ascii_of_string s)
  | _ => []
  end.

(** The updater that the ['market_data'] callback passes to [setData]; it
    throws a [TypeError] when [metrics] is [null] or [undefined]. *)
Definition marketUpdater {platform : Platform} (now : Z)
  (prevData : option DashboardData) : settled (option DashboardData) :=
  match prevData with
  | None => Fulfilled None
  | Some prevData =>
      match get "valueAtRisk" (metrics prevData) with
      | Rejected r => Rejected r
      | Fulfilled valueAtRisk =>
      match get "portfolioValue" (metrics prevData) with
      | Rejected r => Rejected r
      | Fulfilled portfolioValue =>
          Fulfilled (Some
            {| metrics :=
                 VObj (set_prop "timestamp" (VStr (toISOString now))
                      (set_prop "portfolioValue" (jitter portfolioValue 200000)
                      (set_prop "valueAtRisk" (jitter valueAtRisk 50000)
                         (spread (metrics prevData)))));
               varHistory := varHistory prevData;
               sectorExposure := sectorExposure prevData;
               riskAlerts := riskAlerts prevData;
               portfolioBreakdown := portfolioBreakdown prevData;
               systemHealth := systemHealth prevData |})
      end end
  end.

(** The ['market_data'] callback: [Rejected] when its updater throws. *)
Definition onMarketData {platform : Platform} (now : Z) (s : state)
  : settled state :=
  match marketUpdater now (data s) with
  | Rejected r => Rejected r
  | Fulfilled d => Fulfilled (setLastUpdated now (setData (fun _ => d) s))
  end.

(** One tick of [healthCheckInterval]; [health] is how
    [riskAPI.healthCheck()] settles. *)
Definition healthTick (health : settled value) (s : state) : state :=
  match health with
  | Fulfilled health =>
      setData (fun prevData =>
        match prevData with
        | None => None
        | Some prevData =>
            Some {| metrics := metrics prevData;
                    varHistory := varHistory prevData;
                    sectorExposure := sectorExposure prevData;
                    riskAlerts := riskAlerts prevData;
                    portfolioBreakdown := portfolioBreakdown prevData;
                    systemHealth := health |}
        end) s
  | Rejected _ => setIsRealTimeConnected false s
  end.

(** [Math.random() > 0.02] *)
Definition isConnected (r : Q) : bool :=
  if Qlt_le_dec (2 # 100) r then true else false.

(** One tick of [connectionCheck] for the draw [r]; the boolean tells whether
    the reconnection timer (2000 ms) has been set. *)
Definition connectionCheck (r : Q) (s : state) : state * bool :=
  (setIsRealTimeConnected (isConnected r) s, negb (isConnected r)).

(** The callback of the reconnection timer. *)
Definition reconnect (s : state) : state := setIsRealTimeConnected true s.

(** The effect runs again after a change of [data]: the cleanup of the
    previous run, then the body with two fresh closures. *)
Definition rerunEffect (d : DashboardData) (closures : Bus.callback * Bus.callback)
  (o : outside) : outside :=
  effect (Some d) (fst closures) (snd closures) (cleanup (Some d) o).

Definition rerunEffects (d : DashboardData)
  (closures : list (Bus.callback * Bus.callback)) (o : outside) : outside :=
  fold_left (fun o c => rerunEffect d c o) closures o.

(** The alert record of an event of a burst. *)
Definition alertOf {platform : Platform} (e : list (string * value) * Z) : value :=
  newAlert (fst e) (snd e).

(** The intervals of one run of the effect. *)
Definition threeIntervals : list string :=
  ["healthCheckInterval"; "metricsInterval"; "varDataInterval"].

End Loops.

(** ** The cache with the expiry in binary64, as the code computes it *)

Module Cache64.
Import PrimFloat.

(** An entry [{ data, timestamp, ttl }]; [ttl] is a binary64 number. *)
Record entry := Entry { data : value; timestamp : Z; ttl : float }.

Abbreviation store := (gmap string entry).

(** The number [Date.now()] returns at the instant [now]. *)
Definition clock (now : Z) : float := of_uint63 (Uint63.of_Z now).

(** [Date.now() + (ttlSeconds * 1000)] *)
Definition expiry (ttlSeconds : float) (now : Z) : float :=
  (clock now + ttlSeconds * 1000)%float.

(** [Date.now() < cached.ttl] *)
Definition before (now : Z) (e : entry) : bool := ltb (clock now) (ttl e).

(** [Date.now() > cached.ttl] *)
Definition after (now : Z) (e : entry) : bool := ltb (ttl e) (clock now).

(** The synchronous part of [setCache]. *)
Definition setCache (key : string) (d : value) (ttlSeconds : float) (now : Z)
  (c : store) : store :=
  let ttl := expiry ttlSeconds now in
  <[key := Entry d now ttl]> c.

(** The callback that [setCache] hands to [setTimeout]; it runs at [now]. *)
Definition cleanup (key : string) (now : Z) (c : store) : store :=
  match c !! key with
  | Some cached => if after now cached then delete key c else c
  | None => c
  end.

Definition getCache (key : string) (now : Z) (c : store) : value * store :=
  match c !! key with
  | Some cached =>
      if before now cached then (data cached, c) else (VNull, delete key c)
  | None => (VNull, c)
  end.

(** Timer callbacks of earlier [setCache] calls that fire, each for its key at
    its own instant. *)
Definition cleanups (fired : list (string * Z)) (c : store) : store :=
  fold_left (fun c kn => cleanup (fst kn) (snd kn) c) fired c.

End Cache64.

(** ** [fetchRealTimeMetrics] on either side of its [await] *)

Module Await.
Import Gateway.

(** The call up to the [await]: the cache is read, and a truthy value is
    returned at once ([Some]); on a miss ([None]) the call waits. *)
Definition fetchStart (now : Z) (c : Cache.store) : option value * Cache.store :=
  let '(cached, c1) := Cache.getCache cacheKey now c in
  (if truthy cached then Some cached else None, c1).

(** The rest of a call that missed, run when the wait is over, at [later], on
    the cache as it is then: the metrics are built, stored and returned. *)
Definition fetchResume {platform : Platform} (md : MarketData) (later : Z)
  (c : Cache.store) : value * Cache.store :=
  let metrics := VObj (Timescale.freshMetrics md later) in
  (metrics, Cache.setCache cacheKey metrics 5 later c).

End Await.

(** ** Alert events through the bus *)

Module Delivery.

(** The properties of [message.value], an object. *)
Definition payloadOf (m : Bus.KafkaMessage) : list (string * value) :=
  match Bus.value m with
  | VObj props => props
  | _ => []
  end.

(** The callbacks registered for ['risk_alerts']: every one of them is a
    closure created by a run of the second effect of the hook, and applies the
    alert updater to the state of the hook, in the millisecond of the
    publish. *)
Definition alertClosures {platform : Platform} : Bus.Callbacks Hook.state :=
  fun _ m s =>
    (Hook.onRiskAlert (payloadOf m) (Bus.offset m) s,
     {| Bus.subscribed := []; Bus.thrown := None |}).

(** An alert event published at [now] while [ls] is registered. *)
Definition publishAlert {platform : Platform} (props : list (string * value))
  (now : Z) (ls : Bus.listeners) (s : Hook.state) : Hook.state :=
  Bus.after_world
    (Bus.emitKafkaEvent (callbacks := alertClosures)
       "risk_alerts" (VObj props) now ls s).

(** A burst of alert events, oldest first, each with its instant and with the
    listeners registered when it is published (the effect adds a listener
    whenever it runs again). *)
Definition publishAlerts {platform : Platform}
  (burst : list (list (string * value) * Z * Bus.listeners)) (s : Hook.state)
  : Hook.state :=
  fold_left (fun s e => publishAlert (fst (fst e)) (snd (fst e)) (snd e) s)
    burst s.

(** The applications of the alert updater that a burst causes: one per event
    and per listener registered for ['risk_alerts']. *)
Definition applications
  (burst : list (list (string * value) * Z * Bus.listeners))
  : list (list (string * value) * Z) :=
  flat_map (fun e =>
              replicate (length (Bus.registered (snd e) "risk_alerts")) (fst e))
    burst.

End Delivery.

(** ** Concrete platforms, callbacks and states for the scenarios below *)

Module Scenario.

(** Dates print as their instant, no noise, every service up. *)
Definition plain_platform : Platform :=
  {| toISOString := fun now => pretty now;
     toLocaleTimeString := fun now => pretty now;
     jitter := fun x _ => x;
     randomScore := VNum 50;
     randomPartition := 0;
     pingLatency := fun _ => 5;
     pingUp := fun _ => true;
     pingResponseTime := fun _ => 5 |}.

(** Callbacks that never throw; callback 1 registers callback 3 for ["t"]
    each time it is called. *)
Definition quiet_callbacks : Bus.Callbacks unit :=
  fun cb _ w =>
    (w, {| Bus.subscribed := if Nat.eqb cb 1 then [("t", 3%nat)] else [];
           Bus.thrown := None |}).

(** Callbacks among which callback 1 throws. *)
Definition faulty_callbacks : Bus.Callbacks unit :=
  fun cb _ w =>
    (w, {| Bus.subscribed := [];
           Bus.thrown := if Nat.eqb cb 1 then Some (VError "boom") else None |}).

Definition two_on_t : Bus.listeners :=
  Bus.subscribeToKafkaTopic "t" 2%nat (Bus.subscribeToKafkaTopic "t" 1%nat ∅).

Definition three_on_alerts : Bus.listeners :=
  Bus.subscribeToKafkaTopic "alerts" 4%nat
    (Bus.subscribeToKafkaTopic "alerts" 2%nat
       (Bus.subscribeToKafkaTopic "alerts" 1%nat ∅)).

Definition first_call : Bus.delivery :=
  {| Bus.position := 0%nat; Bus.target := 1%nat;
     Bus.received := Bus.make_message (platform := plain_platform) "alerts" VNull 7;
     Bus.raised := Some (VError "boom") |}.

Definition settles (t : Z) (o : settled value) : Gateway.promise :=
  {| Gateway.settles_at := t; Gateway.outcome := o |}.

Definition no_market_data : Gateway.MarketData :=
  {| Gateway.marketData.realTimeMetrics := [];
     Gateway.marketData.varHistoryData := [];
     Gateway.marketData.sectorExposure := [];
     Gateway.marketData.riskAlerts := [];
     Gateway.marketData.portfolioBreakdown := [];
     Gateway.marketData.systemHealth := [] |}.

(** The alert callbacks of the hook as the bus sees them, run on the state of
    the hook: the closures with an even name. The scenario publishes on
    ['risk_alerts'] only, so no other closure is ever run. *)
Definition hook_callbacks : Bus.Callbacks Hook.state :=
  fun cb m w =>
    (if Nat.even cb then
       Hook.onRiskAlert (platform := plain_platform)
         (match Bus.value m with VObj props => props | _ => [] end)
         (Bus.offset m) w
     else w,
     {| Bus.subscribed := []; Bus.thrown := None |}).

Definition no_alerts : Hook.DashboardData :=
  {| Hook.metrics := VObj []; Hook.varHistory := []; Hook.sectorExposure := [];
     Hook.riskAlerts := []; Hook.portfolioBreakdown := [];
     Hook.systemHealth := VObj [] |}.

Definition loaded : Hook.state :=
  Hook.loadData (Fulfilled no_alerts) 0 Hook.initial.

(** The effect runs, is cleaned up and runs again, as it does whenever [data]
    changes. *)
Definition rerun : Hook.outside :=
  Hook.effect (Some no_alerts) 3%nat 4%nat
    (Hook.cleanup (Some no_alerts)
       (Hook.effect (Some no_alerts) 1%nat 2%nat
          {| Hook.intervals := []; Hook.bus := ∅ |})).

End Scenario.

(** * Properties *)

(** ** Expiring cache *)

Module CacheSpec.
Import Cache.

Lemma before_true now e : (inject_Z now < ttl e)%Q -> before now e = true.
Proof.
  intros Hlt. unfold before.
  destruct (Qlt_le_dec (inject_Z now) (ttl e)) as [_ | Hle]; [reflexivity |].
  exfalso. apply (Qle_not_lt _ _ Hle Hlt).
Qed.

Lemma before_false now e : (ttl e <= inject_Z now)%Q -> before now e = false.
Proof.
  intros Hle. unfold before.
  destruct (Qlt_le_dec (inject_Z now) (ttl e)) as [Hlt | _]; [| reflexivity].
  exfalso. apply (Qle_not_lt _ _ Hle Hlt).
Qed.

Lemma lookup_setCache key d t now (c : store) :
  setCache key d t now c !! key
  = Some (Entry d now (inject_Z now + t * 1000)%Q).
Proof. unfold setCache. apply lookup_insert_eq. Qed.

(** A fetch inside the lifetime of the entry returns the stored value and
    leaves the cache as it is. *)
Lemma getCache_fresh key d t now now' (c : store) :
  (inject_Z now' < inject_Z now + t * 1000)%Q ->
  getCache key now' (setCache key d t now c) = (d, setCache key d t now c).
Proof.
  intros Hlt. unfold getCache. rewrite lookup_setCache.
  rewrite before_true; [reflexivity | exact Hlt].
Qed.

(** A fetch at or after the instant of expiry purges the entry. *)
Lemma getCache_expired key d t now now' (c : store) :
  (inject_Z now + t * 1000 <= inject_Z now')%Q ->
  getCache key now' (setCache key d t now c)
  = (VNull, delete key (setCache key d t now c)).
Proof.
  intros Hle. unfold getCache. rewrite lookup_setCache.
  rewrite before_false; [reflexivity | exact Hle].
Qed.

(** A timer callback removes entries and changes none. *)
Lemma lookup_cleanup key k now (c : store) :
  cleanup k now c !! key = c !! key \/ cleanup k now c !! key = None.
Proof.
  unfold cleanup. destruct (c !! k) as [cached |] eqn:Hk; [| by left].
  destruct (after now cached); [| by left].
  destruct (decide (k = key)) as [-> | Hne].
  - right. apply lookup_delete_eq.
  - left. by apply lookup_delete_ne.
Qed.

Lemma lookup_cleanups key fired : forall c : store,
  cleanups fired c !! key = c !! key \/ cleanups fired c !! key = None.
Proof.
  induction fired as [| [k n] fired IH]; intros c; [by left |].
  change (cleanups ((k, n) :: fired) c) with (cleanups fired (cleanup k n c)).
  destruct (IH (cleanup k n c)) as [-> | ->]; [| by right].
  apply lookup_cleanup.
Qed.

(** Whatever timer callbacks ran in between, a fetch at or after the instant
    of expiry finds nothing and leaves no entry for the key. *)
Lemma getCache_expired_after_cleanups key d t now now' fired (c : store) :
  (inject_Z now + t * 1000 <= inject_Z now')%Q ->
  let c' := cleanups fired (setCache key d t now c) in
  fst (getCache key now' c') = VNull /\ snd (getCache key now' c') !! key = None.
Proof.
  intros Hle c'. unfold getCache.
  destruct (lookup_cleanups key fired (setCache key d t now c)) as [Heq | Heq];
    fold c' in Heq; rewrite Heq.
  - rewrite lookup_setCache, before_false by exact Hle. simpl.
    split; [reflexivity | apply lookup_delete_eq].
  - simpl. split; [reflexivity | exact Heq].
Qed.

End CacheSpec.

(** ** The cache in binary64 *)

Module Cache64Spec.
Import PrimFloat Cache64.
Set Warnings "-inexact-float".

Lemma recorded_entry key d t now (c : store) :
  setCache key d t now c !! key = Some (Entry d now (expiry t now)).
Proof. unfold setCache. apply lookup_insert_eq. Qed.

(** A read while the clock is below the recorded expiry returns the stored
    value and leaves the cache as it is. *)
Lemma getCache_below key d t now now' (c : store) :
  PrimFloat.ltb (clock now') (expiry t now) = true ->
  getCache key now' (setCache key d t now c) = (d, setCache key d t now c).
Proof.
  intros Hbelow. unfold getCache, before. rewrite recorded_entry. simpl.
  by rewrite Hbelow.
Qed.

(** A read once the clock is no longer below the recorded expiry purges the
    entry. *)
Lemma getCache_not_below key d t now now' (c : store) :
  PrimFloat.ltb (clock now') (expiry t now) = false ->
  getCache key now' (setCache key d t now c)
  = (VNull, delete key (setCache key d t now c)).
Proof.
  intros Hnot. unfold getCache, before. rewrite recorded_entry. simpl.
  by rewrite Hnot.
Qed.







(** X1. Storing again under a key replaces the entry: the value and the
    recorded expiry are those of the second store alone, whatever the first
    TTL was, so a read returns the second value while the clock is below the
    expiry recorded by the second store, and [null] otherwise. *)
Theorem setCache_overwrites key v1 (t1 : float) now1 v2 (t2 : float) now2
  (c : store) :
  let c' := setCache key v2 t2 now2 (setCache key v1 t1 now1 c) in
  c' = setCache key v2 t2 now2 c
  /\ (forall now', PrimFloat.ltb (clock now') (expiry t2 now2) = true ->
        fst (getCache key now' c') = v2)
  /\ (forall now', PrimFloat.ltb (clock now') (expiry t2 now2) = false ->
        fst (getCache key now' c') = VNull).
Proof.
  intros c'.
  assert (c' = setCache key v2 t2 now2 c) as ->.
  { unfold c', setCache. apply insert_insert_eq. }
  split; [reflexivity |]. split; intros now' Hnow'.
  - by rewrite getCache_below.
  - by rewrite getCache_not_below.
Qed.

(** Two seconds after the stores: a first TTL of an hour is cut short by a
    second store of one second, and a first TTL of one second is extended by a
    second store of an hour. *)
Lemma setCache_overwrites_witness :
  fst (getCache "k" 1793600002000
         (setCache "k" (VNum 2) 1 1793600000000
            (setCache "k" (VNum 1) 3600 1793600000000 ∅)))
  = VNull
  /\ fst (getCache "k" 1793600002000
            (setCache "k" (VNum 2) 3600 1793600000000
               (setCache "k" (VNum 1) 1 1793600000000 ∅)))
     = VNum 2.
Proof.
  split.
  - apply (setCache_overwrites "k" (VNum 1) 3600 1793600000000
             (VNum 2) 1 1793600000000 ∅).
    vm_compute. reflexivity.
  - apply (setCache_overwrites "k" (VNum 1) 1 1793600000000
             (VNum 2) 3600 1793600000000 ∅).
    vm_compute. reflexivity.
Defined.

End Cache64Spec.

(** ** Topic event bus *)

Module BusSpec.
Import Bus Scenario.
Local Open Scope nat_scope.

Section Registration.

Implicit Types (ls : listeners) (t : string) (cb : callback).

Lemma registered_subscribe ls t t' cb :
  registered (subscribeToKafkaTopic t' cb ls) t
  = registered ls t ++ (if decide (t' = t) then [cb] else []).
Proof.
  unfold subscribeToKafkaTopic, registered.
  destruct (decide (t' = t)) as [-> | Hne].
  - rewrite lookup_insert_eq. simpl.
    destruct (ls !! t) eqn:Ht; [by rewrite Ht |].
    by rewrite lookup_insert_eq.
  - rewrite lookup_insert_ne by done. rewrite app_nil_r.
    destruct (ls !! t') eqn:Ht'; [done |].
    by rewrite lookup_insert_ne.
Qed.

(** Subscribing never removes or reorders what is registered. *)
Lemma registered_subscribe_all subs : forall ls t,
  registered ls t `prefix_of` registered (subscribe_all subs ls) t.
Proof.
  induction subs as [| [t' cb] subs IH]; intros ls t; [done |].
  change (subscribe_all ((t', cb) :: subs) ls)
    with (subscribe_all subs (subscribeToKafkaTopic t' cb ls)).
  etrans; [| apply IH].
  rewrite registered_subscribe. by apply prefix_app_r.
Qed.

End Registration.

Section Publish.

Context {W : Type} {callbacks : Callbacks W}.

(** [forEach] over a snapshot [arr] of which the live array is an extension. *)
Lemma forEach_delivered arr t m : forall remaining k ls (w : W),
  arr `prefix_of` registered ls t ->
  k + remaining = length arr ->
  let r := forEach remaining k t m ls w in
  delivered arr m k (deliveries r) (completion r)
  /\ arr `prefix_of` registered (after_listeners r) t.
Proof.
  induction remaining as [| remaining IH]; intros k ls w Hpre Hlen; simpl.
  - split; [| done]. apply delivered_end. lia.
  - assert (is_Some (arr !! k)) as [cb Hcb] by (apply lookup_lt_is_Some; lia).
    rewrite (prefix_lookup_Some _ _ _ _ Hcb Hpre).
    destruct (run cb m w) as [w' r] eqn:Hrun.
    assert (arr `prefix_of` registered (subscribe_all (subscribed r) ls) t) as Hpre'.
    { etrans; [exact Hpre | apply registered_subscribe_all]. }
    destruct (thrown r) as [reason |] eqn:Hthrown; simpl.
    + split; [| done]. by apply delivered_throw.
    + destruct (IH (S k) (subscribe_all (subscribed r) ls) w' Hpre') as [Hd Hp];
        [lia |].
      split; [| done]. by apply delivered_next.
Qed.

End Publish.

Section Delivered.

Context (arr : list callback) (m : KafkaMessage).

Lemma delivered_targets k ds c :
  delivered arr m k ds c ->
  map target ds = take (length ds) (drop k arr).
Proof.
  induction 1 as [k Hk | k cb reason Hcb | k cb ds c Hcb _ IH]; simpl.
  - done.
  - by rewrite (drop_S _ _ _ Hcb).
  - rewrite (drop_S _ _ _ Hcb). simpl. by rewrite IH.
Qed.

Lemma delivered_positions k ds c :
  delivered arr m k ds c ->
  map position ds = seq k (length ds).
Proof.
  induction 1 as [k Hk | k cb reason Hcb | k cb ds c Hcb _ IH]; simpl;
    [done | done | by rewrite IH].
Qed.

Lemma delivered_received k ds c :
  delivered arr m k ds c -> Forall (fun d => received d = m) ds.
Proof.
  induction 1; repeat constructor; done.
Qed.

Lemma delivered_bound k ds c :
  delivered arr m k ds c ->
  Forall (fun d => k <= position d < length arr) ds.
Proof.
  induction 1 as [k Hk | k cb reason Hcb | k cb ds c Hcb _ IH].
  - constructor.
  - apply lookup_lt_Some in Hcb. repeat constructor; simpl; lia.
  - apply lookup_lt_Some in Hcb. constructor; [simpl; lia |].
    eapply Forall_impl; [exact IH |]. simpl. lia.
Qed.

(** Without a throw the whole array is delivered. *)
Lemma delivered_all k ds :
  delivered arr m k ds None ->
  map target ds = drop k arr /\ Forall (fun d => raised d = None) ds.
Proof.
  remember None as c eqn:Hc.
  induction 1 as [k Hk | k cb reason Hcb | k cb ds c Hcb _ IH]; simpl.
  - split; [| constructor]. by rewrite drop_ge.
  - discriminate.
  - destruct (IH Hc) as [IHt IHr].
    split; [| by constructor].
    by rewrite (drop_S _ _ _ Hcb), IHt.
Qed.

(** A throw comes from the last callback called, and from it alone. *)
Lemma delivered_raised k ds c d reason :
  delivered arr m k ds c ->
  d ∈ ds -> raised d = Some reason ->
  c = Some reason /\ Forall (fun d' => position d' <= position d) ds.
Proof.
  induction 1 as [k Hk | k cb reason' Hcb | k cb ds c Hcb Hds IH];
    intros Hin Hraised.
  - by apply elem_of_nil in Hin.
  - apply list_elem_of_singleton in Hin. subst d. simpl in *.
    split; [done |]. repeat constructor.
  - apply elem_of_cons in Hin as [-> | Hin]; [discriminate |].
    destruct (IH Hin Hraised) as [Hc Hle].
    split; [done |]. constructor; [| done]. simpl.
    pose proof (delivered_bound _ _ _ Hds) as Hb.
    rewrite Forall_forall in Hb. specialize (Hb d Hin). lia.
Qed.

Lemma delivered_thrown k ds reason :
  delivered arr m k ds (Some reason) ->
  exists d, last ds = Some d /\ raised d = Some reason
            /\ Forall (fun d' => raised d' = None) (removelast ds).
Proof.
  remember (Some reason) as c eqn:Hc.
  induction 1 as [k Hk | k cb reason' Hcb | k cb ds c Hcb Hds IH].
  - discriminate.
  - injection Hc as ->. eexists. simpl. repeat split; constructor.
  - destruct (IH Hc) as (d & Hlast & Hr & Hrest).
    exists d. destruct ds as [| d0 ds]; [discriminate |].
    split; [exact Hlast |]. split; [exact Hr |].
    change (removelast (?x :: d0 :: ds)) with (x :: removelast (d0 :: ds)).
    by constructor.
Qed.

End Delivered.

Section Claims.

Context {W : Type} {platform : Platform} {callbacks : Callbacks W}.

Lemma emit_delivered t d now ls (w : W) :
  let r := emitKafkaEvent t d now ls w in
  delivered (registered ls t) (make_message t d now) 0
    (deliveries r) (completion r)
  /\ registered ls t `prefix_of` registered (after_listeners r) t.
Proof. unfold emitKafkaEvent. by apply forEach_delivered. Qed.

(** C2, as the code has it. [emitKafkaEvent] calls the callbacks registered
    for the topic at the moment of the publish, each at most once, in
    registration order and with the same message, up to and including the
    first one that throws: all of them, once each, when none of the calls
    throws. A callback registered during the publish is placed after them and
    is not called by this publish. *)
Theorem publish_delivers_snapshot t d now ls (w : W) :
  let arr := registered ls t in
  let r := emitKafkaEvent t d now ls w in
  let n := length (deliveries r) in
  map target (deliveries r) = take n arr
  /\ map position (deliveries r) = seq 0 n
  /\ Forall (fun x => received x = make_message t d now) (deliveries r)
  /\ Forall (fun x => raised x = None) (removelast (deliveries r))
  /\ (Forall (fun x => raised x = None) (deliveries r) ->
      map target (deliveries r) = arr)
  /\ Forall (fun x => position x < length arr) (deliveries r)
  /\ arr `prefix_of` registered (after_listeners r) t.
Proof.
  intros arr r n.
  destruct (emit_delivered t d now ls w) as [Hd Hp]. fold r arr in Hd, Hp.
  split; [by rewrite (delivered_targets _ _ _ _ _ Hd) |].
  split; [exact (delivered_positions _ _ _ _ _ Hd) |].
  split; [exact (delivered_received _ _ _ _ _ Hd) |].
  split; [| split; [| split; [| exact Hp]]].
  - destruct (completion r) as [reason |].
    + by destruct (delivered_thrown _ _ _ _ _ Hd) as (_ & _ & _ & Hrest).
    + destruct (delivered_all _ _ _ _ Hd) as [_ Hnone].
      destruct (deliveries r) as [| x xs] using rev_ind; [constructor |].
      rewrite removelast_last. by apply Forall_app in Hnone as [Hnone _].
  - intros Hnone. destruct (completion r) as [reason |].
    + destruct (delivered_thrown _ _ _ _ _ Hd) as (x & Hlast & Hx & _).
      apply last_Some_elem_of in Hlast.
      rewrite Forall_forall in Hnone. specialize (Hnone x Hlast). congruence.
    + by destruct (delivered_all _ _ _ _ Hd) as [Ht _].
  - eapply Forall_impl; [exact (delivered_bound _ _ _ _ _ Hd) |].
    simpl. intros x Hx. lia.
Qed.

(** C4, as the code has it. When a callback throws during a publish, the
    exception leaves [emitKafkaEvent] and no callback registered after the
    one that threw is called for that event. *)
Theorem throw_ends_publish t d now ls (w : W) x reason :
  let r := emitKafkaEvent t d now ls w in
  x ∈ deliveries r ->
  raised x = Some reason ->
  completion r = Some reason
  /\ forall j cb, position x < j -> registered ls t !! j = Some cb ->
       ~ exists y, y ∈ deliveries r /\ position y = j.
Proof.
  intros r Hin Hraised.
  destruct (emit_delivered t d now ls w) as [Hd _]. fold r in Hd.
  destruct (delivered_raised _ _ _ _ _ _ _ Hd Hin Hraised) as [Hc Hle].
  split; [exact Hc |].
  intros j cb Hj _ (y & Hy & Hpos).
  rewrite Forall_forall in Hle. specialize (Hle y Hy). lia.
Qed.

End Claims.

(** The scenario of the specification: callbacks 1 and 2 subscribed to ["t"]
    in that order, [{a:1}] published; both are called, 1 before 2, although 1
    registers a third callback meanwhile. *)
Lemma publish_delivers_snapshot_witness :
  map target
    (deliveries (emitKafkaEvent (platform := plain_platform) (callbacks := quiet_callbacks)
                   "t" (VObj [("a", VNum 1)]) 0%Z two_on_t tt))
  = [1; 2].
Proof.
  pose proof (publish_delivers_snapshot (platform := plain_platform)
                (callbacks := quiet_callbacks) "t" (VObj [("a", VNum 1)]) 0%Z
                two_on_t tt) as (_ & _ & _ & _ & Hall & _).
  apply Hall. vm_compute. repeat constructor.
Defined.

(** With a callback that throws, the callbacks called are not the callbacks
    registered. *)
Lemma publish_stops_at_throw :
  map target
    (deliveries (emitKafkaEvent (platform := plain_platform) (callbacks := faulty_callbacks)
                   "t" (VObj [("a", VNum 1)]) 0%Z two_on_t tt))
  <> registered two_on_t "t".
Proof. vm_compute. discriminate. Qed.

Lemma throw_ends_publish_witness :
  completion (emitKafkaEvent (platform := plain_platform) (callbacks := faulty_callbacks)
                "alerts" VNull 7%Z three_on_alerts tt)
  = Some (VError "boom").
Proof.
  refine (proj1 (throw_ends_publish (platform := plain_platform)
                   (callbacks := faulty_callbacks) "alerts" VNull 7%Z three_on_alerts
                   tt first_call (VError "boom") _ _)).
  - vm_compute. apply list_elem_of_singleton. reflexivity.
  - reflexivity.
Defined.

(** Callback 1 throws on ["alerts"]; callbacks 2 and 4, registered after it
    for the same topic, are not called with the event. *)
Lemma later_callbacks_not_called :
  registered three_on_alerts "alerts" = [1; 2; 4]
  /\ map (fun x => (target x, raised x))
       (deliveries (emitKafkaEvent (platform := plain_platform) (callbacks := faulty_callbacks)
                      "alerts" VNull 7%Z three_on_alerts tt))
     = [(1, Some (VError "boom"))]
  /\ 2 ∉ map target
           (deliveries (emitKafkaEvent (platform := plain_platform)
                          (callbacks := faulty_callbacks)
                          "alerts" VNull 7%Z three_on_alerts tt)).
Proof.
  split; [| split]; [vm_compute; reflexivity ..|].
  vm_compute. intros Hin. apply list_elem_of_singleton in Hin. discriminate.
Qed.

End BusSpec.

(** ** Source gateway *)

Module GatewaySpec.
Import Gateway.

Lemma is_active_spec alert :
  is_active alert = true <-> lookup_prop "status" alert = VStr "ACTIVE".
Proof.
  unfold is_active, strict_eq_str.
  destruct (lookup_prop "status" alert) as [| | b | q | s | l | o | e];
    try (split; [discriminate | intros [=]]).
  destruct (String.eqb_spec s "ACTIVE") as [-> | Hne].
  - split; reflexivity.
  - split; [discriminate | intros [= Hs]; contradiction].
Qed.

Section Invoke.

Context {platform : Platform} (md : MarketData).

Lemma invoke_unknown functionName payload now :
  functionName ∉ lambdaFunctions ->
  outcome (invokeLambdaFunction md functionName payload now)
  = Rejected (VError ("Unknown Lambda function: " +:+ functionName)).
Proof.
  intros Hnot. unfold invokeLambdaFunction. simpl.
  destruct (String.eqb_spec functionName "RISK_CALCULATION") as [-> | _].
  { exfalso. apply Hnot. unfold lambdaFunctions. set_solver. }
  destruct (String.eqb_spec functionName "PORTFOLIO_ANALYSIS") as [-> | _].
  { exfalso. apply Hnot. unfold lambdaFunctions. set_solver. }
  destruct (String.eqb_spec functionName "ALERT_PROCESSOR") as [-> | _].
  { exfalso. apply Hnot. unfold lambdaFunctions. set_solver. }
  reflexivity.
Qed.

Lemma invoke_known functionName payload now :
  functionName ∈ lambdaFunctions ->
  exists body,
    outcome (invokeLambdaFunction md functionName payload now)
    = Fulfilled (response body).
Proof.
  unfold lambdaFunctions. intros Hin.
  repeat (apply elem_of_cons in Hin as [-> | Hin]); [| | | by apply elem_of_nil in Hin];
    eexists; reflexivity.
Qed.

(** C6. [invokeLambdaFunction] fulfils with [{statusCode: 200, body}] exactly
    when the name is one of RISK_CALCULATION, PORTFOLIO_ANALYSIS and
    ALERT_PROCESSOR, and rejects with the error [Unknown Lambda function] for
    every other name; ["ALERT_PROCESSOR"] gives a body with [alerts], and
    ["NOT_A_FUNCTION"] is rejected. *)
Theorem invoke_dispatch functionName payload now :
  let result := outcome (invokeLambdaFunction md functionName payload now) in
  ((exists body, result = Fulfilled (response body))
   <-> functionName ∈ lambdaFunctions)
  /\ (functionName ∈ lambdaFunctions
      \/ result = Rejected (VError ("Unknown Lambda function: " +:+ functionName)))
  /\ outcome (invokeLambdaFunction md "ALERT_PROCESSOR" (VObj []) now)
     = Fulfilled (response
         [("alerts",
           VArr (map VObj (List.filter is_active (marketData.riskAlerts md))));
          ("processedAt", VStr (toISOString (now + 5)))])
  /\ outcome (invokeLambdaFunction md "NOT_A_FUNCTION" (VObj []) now)
     = Rejected (VError "Unknown Lambda function: NOT_A_FUNCTION").
Proof.
  intros result.
  destruct (decide (functionName ∈ lambdaFunctions)) as [Hin | Hnot].
  - split; [| split; [by left | split; reflexivity]].
    split; [done | intros _; by apply invoke_known].
  - pose proof (invoke_unknown functionName payload now Hnot) as Hrej.
    fold result in Hrej.
    split; [| split; [by right | split; reflexivity]].
    split; [| done]. intros [body Hbody]. congruence.
Qed.

(** C9. The [alerts] of an ["ALERT_PROCESSOR"] result are the alerts of the
    underlying data whose [status] is ['ACTIVE'], in their order; an alert with
    status ['RESOLVED'] or ['MONITORING'] is never among them. *)
Theorem alert_processor_only_active payload now :
  exists alerts,
    outcome (invokeLambdaFunction md "ALERT_PROCESSOR" payload now)
    = Fulfilled (response
        [("alerts", VArr (map VObj alerts));
         ("processedAt", VStr (toISOString (now + 5)))])
    /\ alerts = List.filter is_active (marketData.riskAlerts md)
    /\ (forall alert,
          alert ∈ alerts
          <-> alert ∈ marketData.riskAlerts md
              /\ lookup_prop "status" alert = VStr "ACTIVE")
    /\ (forall alert,
          alert ∈ marketData.riskAlerts md ->
          lookup_prop "status" alert = VStr "RESOLVED"
          \/ lookup_prop "status" alert = VStr "MONITORING" ->
          alert ∉ alerts).
Proof.
  exists (List.filter is_active (marketData.riskAlerts md)).
  split; [reflexivity |]. split; [reflexivity |].
  assert (forall alert,
            alert ∈ List.filter is_active (marketData.riskAlerts md)
            <-> alert ∈ marketData.riskAlerts md
                /\ lookup_prop "status" alert = VStr "ACTIVE") as Hiff.
  { intros alert. rewrite !list_elem_of_In, filter_In, is_active_spec. tauto. }
  split; [exact Hiff |].
  intros alert _ Hstatus Hin. apply Hiff in Hin as [_ Hactive].
  destruct Hstatus as [Hs | Hs]; congruence.
Qed.

End Invoke.

Lemma or_else_not_nullish a : nullish (or_else a (VArr [])) = false.
Proof. unfold or_else. destruct a as [| | [] | q | s | l | o | e]; simpl; try reflexivity;
  destruct (negb _); reflexivity. Qed.

Lemma or_else_default a : nullish a = true -> or_else a (VArr []) = VArr [].
Proof. destruct a; simpl; intros [=]; reflexivity. Qed.

Lemma get_fulfilled name v w : get name v = Fulfilled w -> get_opt name v = w.
Proof. unfold get_opt. by intros ->. Qed.

Lemma Promise_all_fulfilled ps vs :
  Forall2 (fun p v => outcome p = Fulfilled v) ps vs ->
  Promise_all ps = Fulfilled vs.
Proof.
  intros Hall. unfold Promise_all.
  assert (earliest_rejection ps = None /\ map fulfilment ps = vs) as [-> ->];
    [| reflexivity].
  induction Hall as [| p v ps vs Hp _ [IHr IHv]]; [done |].
  simpl. unfold fulfilment at 1. rewrite Hp, IHr, IHv. done.
Qed.

Lemma varHistoryQuery_branch : includes "varHistory" varHistoryQuery = true.
Proof. vm_compute. reflexivity. Qed.

Lemma sectorExposureQuery_branch :
  includes "varHistory" sectorExposureQuery = false
  /\ includes "sectorExposure" sectorExposureQuery = true.
Proof. split; vm_compute; reflexivity. Qed.

Section Assemble.

Context {platform : Platform} (md : MarketData).

Lemma fetchRealTimeMetrics_fulfilled now (c : Cache.store) :
  exists v, outcome (fst (fetchRealTimeMetrics md now c)) = Fulfilled v.
Proof.
  unfold fetchRealTimeMetrics.
  destruct (Cache.getCache cacheKey now c) as [cached c1].
  destruct (truthy cached); eexists; reflexivity.
Qed.

Lemma healthCheck_fulfilled now :
  exists v, outcome (healthCheck md now) = Fulfilled v.
Proof. eexists. reflexivity. Qed.

(** C10. [getAllDashboardData] always succeeds on the gateway's own calls, and
    [varHistory], [sectorExposure], [riskAlerts] and [portfolioBreakdown] of
    its result are arrays. Whatever the six calls resolve to, none of these
    four fields of a successful result is [null] or [undefined], and a field
    the upstream result lacks ([data] or [body] null or undefined, or the
    property itself) is the empty array. *)
Theorem dashboard_arrays now (c : Cache.store) :
  (exists d,
     fst (getAllDashboardData md now c) = Fulfilled d
     /\ is_array (varHistory d) = true
     /\ is_array (sectorExposure d) = true
     /\ is_array (riskAlerts d) = true
     /\ is_array (portfolioBreakdown d) = true)
  /\ forall members d,
       assemble members = Fulfilled d ->
       exists values,
         Promise_all members = Fulfilled values
         /\ nullish (varHistory d) = false
         /\ nullish (sectorExposure d) = false
         /\ nullish (riskAlerts d) = false
         /\ nullish (portfolioBreakdown d) = false
         /\ (nullish (upstream "data" "varHistory" (element 1 values)) = true ->
             varHistory d = VArr [])
         /\ (nullish (upstream "data" "sectorExposure" (element 2 values)) = true ->
             sectorExposure d = VArr [])
         /\ (nullish (upstream "body" "alerts" (element 3 values)) = true ->
             riskAlerts d = VArr [])
         /\ (nullish (upstream "body" "analysis" (element 4 values)) = true ->
             portfolioBreakdown d = VArr []).
Proof.
  split.
  - unfold getAllDashboardData.
    destruct (fetchRealTimeMetrics_fulfilled now c) as [v0 Hv0].
    destruct (fetchRealTimeMetrics md now c) as [metrics c']. simpl in Hv0 |- *.
    destruct (healthCheck_fulfilled now) as [v5 Hv5].
    unfold assemble.
    erewrite Promise_all_fulfilled.
    2:{ repeat match goal with |- Forall2 _ _ _ => constructor end;
          [exact Hv0 | reflexivity | reflexivity | reflexivity | reflexivity | exact Hv5]. }
    unfold executeGraphQLQuery. rewrite varHistoryQuery_branch.
    destruct sectorExposureQuery_branch as [-> ->].
    simpl. eexists. split; [reflexivity |]. simpl. repeat split.
  - intros members d. unfold assemble.
    destruct (Promise_all members) as [values |]; [| discriminate].
    destruct (get "data" (element 1 values)) as [vd |] eqn:Hvd; [| discriminate].
    destruct (get "data" (element 2 values)) as [sd |] eqn:Hsd; [| discriminate].
    destruct (get "body" (element 3 values)) as [ab |] eqn:Hab; [| discriminate].
    destruct (get "body" (element 4 values)) as [pb |] eqn:Hpb; [| discriminate].
    intros [= <-]. exists values. simpl. unfold upstream.
    rewrite (get_fulfilled _ _ _ Hvd), (get_fulfilled _ _ _ Hsd),
      (get_fulfilled _ _ _ Hab), (get_fulfilled _ _ _ Hpb).
    split; [reflexivity |].
    repeat (split; [apply or_else_not_nullish |]).
    repeat split; apply or_else_default.
Qed.

End Assemble.

(** A query result with [data] null: the snapshot's [varHistory] is the empty
    array. *)
Lemma dashboard_arrays_witness :
  exists d,
    assemble
      (map (fun v => {| settles_at := 0; outcome := Fulfilled v |})
         [VObj []; VObj [("data", VNull)]; VObj [("data", VNull)];
          VObj [("body", VObj [])]; VObj []; VObj []])
    = Fulfilled d
    /\ varHistory d = VArr []
    /\ portfolioBreakdown d = VArr [].
Proof.
  eexists. split; [vm_compute; reflexivity |].
  match goal with
  | |- varHistory ?d = _ /\ _ =>
      destruct (proj2 (dashboard_arrays (platform := Scenario.plain_platform)
                         Scenario.no_market_data 0 ∅)
                 (map (fun v => {| settles_at := 0; outcome := Fulfilled v |})
                    [VObj []; VObj [("data", VNull)]; VObj [("data", VNull)];
                     VObj [("body", VObj [])]; VObj []; VObj []])
                 d eq_refl)
        as (values & Hvalues & _ & _ & _ & _ & Hvar & _ & _ & Hport)
  end.
  injection Hvalues as <-.
  split; [apply Hvar | apply Hport]; reflexivity.
Defined.

End GatewaySpec.

(** ** The dashboard hook *)

Module HookSpec.
Import Hook Scenario.

Section Join.

Import Gateway.

Lemma earliest_rejection_member (ps : list promise) : forall t reason,
  earliest_rejection ps = Some (t, reason) ->
  exists p, p ∈ ps /\ outcome p = Rejected reason.
Proof.
  induction ps as [| a ps IH]; intros t reason Hfirst; [discriminate |].
  simpl in Hfirst. destruct (outcome a) as [v | ra] eqn:Ha.
  - destruct (IH _ _ Hfirst) as (p & Hp & Hr).
    exists p. split; [by right | done].
  - destruct (earliest_rejection ps) as [[t' r'] |].
    + destruct (t' <? settles_at a)%Z; injection Hfirst as <- <-.
      * destruct (IH _ _ eq_refl) as (p & Hp & Hr).
        exists p. split; [by right | done].
      * exists a. split; [by left | done].
    + injection Hfirst as <- <-. exists a. split; [by left | done].
Qed.

(** When a member rejects, the join rejects, with the reason of a member. *)
Lemma earliest_rejection_Some (ps : list promise) :
  (exists p, p ∈ ps /\ is_rejected (outcome p) = true) ->
  exists t reason,
    earliest_rejection ps = Some (t, reason)
    /\ exists p, p ∈ ps /\ outcome p = Rejected reason.
Proof.
  intros Hrej.
  assert (is_Some (earliest_rejection ps)) as [[t reason] Hfirst].
  { induction ps as [| a ps IH]; destruct Hrej as (q & Hq & Hrej).
    { by apply elem_of_nil in Hq. }
    simpl. destruct (outcome a) as [v | ra] eqn:Ha.
    - apply elem_of_cons in Hq as [-> | Hq]; [by rewrite Ha in Hrej |].
      apply IH. by eauto.
    - destruct (earliest_rejection ps) as [[t' r'] |]; [| by eexists].
      destruct (t' <? settles_at a)%Z; by eexists. }
  exists t, reason. split; [done |]. by eapply earliest_rejection_member.
Qed.

Lemma assemble_rejects (members : list promise) :
  (exists p, p ∈ members /\ is_rejected (outcome p) = true) ->
  exists reason,
    assemble members = Rejected reason
    /\ exists p, p ∈ members /\ outcome p = Rejected reason.
Proof.
  intros Hrej.
  destruct (earliest_rejection_Some members Hrej) as (t & reason & Hfirst & Hp).
  exists reason. split; [| exact Hp].
  unfold assemble, Promise_all. by rewrite Hfirst.
Qed.

End Join.

(** C3. The initial load is all-or-nothing. If one of the six calls issued by
    [getAllDashboardData] rejects, the call as a whole rejects, with the
    reason of a rejected member, and produces no data; [loadData] then leaves
    [data] as it was ([null] on the first load), stores an error message and
    clears [loading] and [isRealTimeConnected]. *)
Theorem initial_load_all_or_nothing
  (metrics varData sectorData alerts portfolio health : Gateway.promise)
  (now : Z) (s : state) :
  let members := [metrics; varData; sectorData; alerts; portfolio; health] in
  (exists p, p ∈ members /\ is_rejected (Gateway.outcome p) = true) ->
  exists reason,
    Gateway.assemble members = Rejected reason
    /\ (exists p, p ∈ members /\ Gateway.outcome p = Rejected reason)
    /\ data (loadData (Rejected reason) now s) = data s
    /\ data (loadData (Rejected reason) now initial) = None
    /\ error (loadData (Rejected reason) now s) = Some (message_of reason)
    /\ loading (loadData (Rejected reason) now s) = false
    /\ isRealTimeConnected (loadData (Rejected reason) now s) = false.
Proof.
  intros members Hrej.
  destruct (assemble_rejects members Hrej) as (reason & Hassemble & Hmember).
  exists reason. repeat split; done.
Qed.

(** The time-series query rejects, the other five calls succeed. *)
Lemma initial_load_all_or_nothing_witness :
  exists reason,
    Gateway.assemble
      [settles 12 (Fulfilled (VObj []));
       settles 8 (Rejected (VError "timeout"));
       settles 8 (Fulfilled (VObj [("data", VNull)]));
       settles 5 (Fulfilled (VObj [("body", VObj [])]));
       settles 5 (Fulfilled (VObj [("body", VObj [])]));
       settles 25 (Fulfilled (VObj []))]
    = Rejected reason
    /\ data (loadData (Rejected reason) 30 initial) = None
    /\ error (loadData (Rejected reason) 30 initial) = Some (message_of reason).
Proof.
  destruct (initial_load_all_or_nothing
              (settles 12 (Fulfilled (VObj [])))
              (settles 8 (Rejected (VError "timeout")))
              (settles 8 (Fulfilled (VObj [("data", VNull)])))
              (settles 5 (Fulfilled (VObj [("body", VObj [])])))
              (settles 5 (Fulfilled (VObj [("body", VObj [])])))
              (settles 25 (Fulfilled (VObj [])))
              30 initial)
    as (reason & Hassemble & _ & Hdata & _ & Herror & _).
  { exists (settles 8 (Rejected (VError "timeout"))).
    split; [| reflexivity]. apply list_elem_of_In. simpl. tauto. }
  exists reason. split; [exact Hassemble |]. split; [exact Hdata | exact Herror].
Defined.

Section Alerts.

Context {platform : Platform}.

Lemma onRiskAlerts_snoc events e s :
  onRiskAlerts (events ++ [e]) s
  = onRiskAlert (fst e) (snd e) (onRiskAlerts events s).
Proof. unfold onRiskAlerts. by rewrite fold_left_app. Qed.

Lemma onRiskAlert_capped payload now s :
  match data (onRiskAlert payload now s) with
  | Some d => (length (riskAlerts d) <= 10)%nat
  | None => data s = None
  end.
Proof.
  unfold onRiskAlert. simpl. destruct (data s) as [prevData |]; [| done].
  simpl. rewrite length_take. lia.
Qed.

Lemma onRiskAlerts_no_data events : forall s,
  data s = None -> data (onRiskAlerts events s) = None.
Proof.
  induction events as [| e events IH]; intros s Hs; [done |].
  apply IH. unfold onRiskAlert. simpl. by rewrite Hs.
Qed.

Lemma onRiskAlerts_data events : forall s,
  data (onRiskAlerts events s) = None -> data s = None.
Proof.
  induction events as [| e events IH]; intros s Hs; [done |].
  apply IH in Hs. unfold onRiskAlert in Hs. simpl in Hs.
  by destruct (data s).
Qed.

(** C7. Whatever the alert list was and however many alert events arrive,
    after each event has been handled the list holds at most 10 alerts (when
    there is no data yet there is no list, and there is none afterwards). *)
Theorem alert_list_capped events e s :
  match data (onRiskAlerts (events ++ [e]) s) with
  | Some d => (length (riskAlerts d) <= 10)%nat
  | None => data s = None
  end.
Proof.
  rewrite onRiskAlerts_snoc.
  pose proof (onRiskAlert_capped (fst e) (snd e) (onRiskAlerts events s)) as Hcap.
  destruct (data (onRiskAlert (fst e) (snd e) (onRiskAlerts events s)));
    [exact Hcap |].
  by apply onRiskAlerts_data in Hcap.
Qed.

End Alerts.

(** C8. A tick of the metrics loop whose fetch fails changes nothing: [data],
    and with it [metrics] and every other field of the snapshot, is what it
    was before the tick. *)
Theorem metrics_failure_keeps_snapshot reason now s :
  metricsTick (Rejected reason) now s = s
  /\ data (metricsTick (Rejected reason) now s) = data s.
Proof. split; reflexivity. Qed.

(** For comparison, a successful tick replaces [metrics] and nothing else of
    the snapshot. *)
Lemma metrics_success_patches newMetrics now s d :
  data s = Some d ->
  exists d',
    data (metricsTick (Fulfilled newMetrics) now s) = Some d'
    /\ metrics d' = newMetrics
    /\ varHistory d' = varHistory d
    /\ sectorExposure d' = sectorExposure d
    /\ riskAlerts d' = riskAlerts d
    /\ portfolioBreakdown d' = portfolioBreakdown d
    /\ systemHealth d' = systemHealth d.
Proof. intros Hd. simpl. rewrite Hd. eexists. repeat split. Qed.

(** The cleanup of the effect stops the three intervals and leaves every
    listener registered: the class offers nothing to remove one with. *)
Lemma cleanup_keeps_listeners d onMarket onAlert o :
  let o' := cleanup (Some d) (effect (Some d) onMarket onAlert o) in
  Bus.registered (bus o') "risk_alerts"
  = Bus.registered (bus o) "risk_alerts" ++ [onAlert]
  /\ Bus.registered (bus o') "market_data"
     = Bus.registered (bus o) "market_data" ++ [onMarket].
Proof.
  simpl. rewrite !BusSpec.registered_subscribe.
  repeat case_decide; try discriminate; try done.
  by rewrite !app_nil_r.
Qed.

(** C5, on the code. [subscribeToKafkaTopic] returns no handle and the class
    has no [unsubscribe]: after a cleanup and a second run of the effect both
    alert callbacks are registered, and a single alert event is delivered to
    both and recorded twice. *)
Theorem rerun_accumulates_listeners :
  let r := Bus.emitKafkaEvent (platform := plain_platform)
             (callbacks := hook_callbacks)
             "risk_alerts" (VObj [("symbol", VStr "TSLA")]) 1000 (bus rerun)
             loaded in
  intervals rerun = ["healthCheckInterval"; "metricsInterval"; "varDataInterval"]
  /\ Bus.registered (bus rerun) "risk_alerts" = [2%nat; 4%nat]
  /\ map Bus.target (Bus.deliveries r) = [2%nat; 4%nat]
  /\ (length <$> (riskAlerts <$> data (Bus.after_world r))) = Some 2%nat.
Proof. vm_compute. repeat split. Qed.

End HookSpec.

(** ** More on the expiring cache *)

Module CacheMore.
Import Cache.

Lemma after_true now e : (ttl e < inject_Z now)%Q -> after now e = true.
Proof.
  intros Hlt. unfold after.
  destruct (Qlt_le_dec (ttl e) (inject_Z now)) as [_ | Hle]; [reflexivity |].
  exfalso. apply (Qle_not_lt _ _ Hle Hlt).
Qed.

Lemma after_false now e : (inject_Z now <= ttl e)%Q -> after now e = false.
Proof.
  intros Hle. unfold after.
  destruct (Qlt_le_dec (ttl e) (inject_Z now)) as [Hlt | _]; [| reflexivity].
  exfalso. apply (Qle_not_lt _ _ Hle Hlt).
Qed.

Lemma after_inv now e : after now e = true -> (ttl e < inject_Z now)%Q.
Proof.
  unfold after. by destruct (Qlt_le_dec (ttl e) (inject_Z now)).
Qed.

Lemma before_inv now e : before now e = false -> (ttl e <= inject_Z now)%Q.
Proof.
  unfold before. by destruct (Qlt_le_dec (inject_Z now) (ttl e)).
Qed.

Lemma inject_Z_le (a b : Z) : a <= b -> (inject_Z a <= inject_Z b)%Q.
Proof. intros Hab. by rewrite <- Zle_Qle. Qed.

(** X2. A store, a read and a cleanup timer of one key leave the entry of
    every other key as it is. *)
Theorem other_keys_untouched key key' d (t : Q) now (c : store) :
  key <> key' ->
  setCache key d t now c !! key' = c !! key'
  /\ snd (getCache key now c) !! key' = c !! key'
  /\ cleanup key now c !! key' = c !! key'.
Proof.
  intros Hne. split; [| split].
  - unfold setCache. by apply lookup_insert_ne.
  - unfold getCache. destruct (c !! key) as [cached |]; [| done].
    destruct (before now cached); simpl; [done |]. by apply lookup_delete_ne.
  - unfold cleanup. destruct (c !! key) as [cached |]; [| done].
    destruct (after now cached); [| done]. by apply lookup_delete_ne.
Qed.

Lemma other_keys_untouched_witness :
  snd (getCache "a" 9000 (setCache "a" VNull 5 0 (setCache "b" (VNum 1) 5 0 ∅)))
    !! "b"
  = setCache "a" VNull 5 0 (setCache "b" (VNum 1) 5 0 ∅) !! "b".
Proof.
  refine (proj1 (proj2 (other_keys_untouched "a" "b" VNull 5 9000
                          (setCache "a" VNull 5 0 (setCache "b" (VNum 1) 5 0 ∅))
                          _))).
  discriminate.
Defined.

(** What a read returns, from the entry alone. *)
Lemma getCache_value key now (c : store) :
  fst (getCache key now c)
  = match c !! key with
    | Some e => if before now e then data e else VNull
    | None => VNull
    end.
Proof.
  unfold getCache. destruct (c !! key) as [e |]; [| done].
  by destruct (before now e).
Qed.

(** X3. Eviction cannot be observed: neither a cleanup timer nor a read, of
    any key, changes what a read at the same or a later instant returns. *)
Theorem eviction_is_invisible key key' now now' (c : store) :
  now <= now' ->
  fst (getCache key' now' (cleanup key now c)) = fst (getCache key' now' c)
  /\ fst (getCache key' now' (snd (getCache key now c)))
     = fst (getCache key' now' c).
Proof.
  intros Hle. apply inject_Z_le in Hle. rewrite !getCache_value. split.
  - unfold cleanup. destruct (c !! key) as [cached |] eqn:Hkey; [| done].
    destruct (after now cached) eqn:Hafter; [| done].
    destruct (decide (key = key')) as [<- | Hne].
    + rewrite lookup_delete_eq, Hkey.
      apply after_inv in Hafter.
      rewrite CacheSpec.before_false; [done |].
      apply Qlt_le_weak. eapply Qlt_le_trans; [exact Hafter | exact Hle].
    + by rewrite lookup_delete_ne.
  - unfold getCache. destruct (c !! key) as [cached |] eqn:Hkey; [| done].
    destruct (before now cached) eqn:Hbefore; simpl; [done |].
    destruct (decide (key = key')) as [<- | Hne].
    + rewrite lookup_delete_eq, Hkey.
      apply before_inv in Hbefore.
      rewrite CacheSpec.before_false; [done |].
      eapply Qle_trans; [exact Hbefore | exact Hle].
    + by rewrite lookup_delete_ne.
Qed.

Lemma eviction_is_invisible_witness :
  fst (getCache "m" 7000 (cleanup "m" 6000 (setCache "m" (VNum 1) 5 0 ∅)))
  = fst (getCache "m" 7000 (setCache "m" (VNum 1) 5 0 ∅)).
Proof.
  refine (proj1 (eviction_is_invisible "m" "m" 6000 7000
                   (setCache "m" (VNum 1) 5 0 ∅) _)).
  vm_compute. discriminate.
Defined.

(** X4. The timer that [setCache] sets for [ttlSeconds * 1000] ms does
    nothing when it fires on time: at the instant of expiry, and at any instant
    before it, the cleanup leaves the entry in the cache, although a read at
    the instant of expiry already returns [null]. *)
Theorem cleanup_on_time_keeps_entry key d (t : Q) now now' (c : store) :
  (inject_Z now' <= inject_Z now + t * 1000)%Q ->
  cleanup key now' (setCache key d t now c) = setCache key d t now c
  /\ ((inject_Z now' == inject_Z now + t * 1000)%Q ->
      fst (getCache key now' (setCache key d t now c)) = VNull).
Proof.
  intros Hle. split.
  - unfold cleanup. rewrite CacheSpec.lookup_setCache.
    by rewrite after_false.
  - intros Heq. rewrite CacheSpec.getCache_expired; [done |].
    rewrite Heq. apply Qle_refl.
Qed.

Lemma cleanup_on_time_keeps_entry_witness :
  cleanup "m" 5000 (setCache "m" (VNum 1) 5 0 ∅) = setCache "m" (VNum 1) 5 0 ∅
  /\ fst (getCache "m" 5000 (setCache "m" (VNum 1) 5 0 ∅)) = VNull.
Proof.
  assert (inject_Z 5000 <= inject_Z 0 + 5 * 1000)%Q as Hle
    by (vm_compute; discriminate).
  destruct (cleanup_on_time_keeps_entry "m" (VNum 1) 5 0 5000 ∅ Hle)
    as [Hkeep Hread].
  split; [exact Hkeep |]. apply Hread. reflexivity.
Defined.

End CacheMore.

(** ** Object literals and substrings *)

Module JsFacts.
Export Text.

(** [{...props, k: v}] read back: [k] holds [v], every other name is as in
    [props]. *)
Lemma lookup_set_prop name k v props :
  lookup_prop name (set_prop k v props)
  = if String.eqb k name then v else lookup_prop name props.
Proof.
  induction props as [| [k' w] props IH]; simpl.
  - destruct (String.eqb k name); reflexivity.
  - destruct (String.eqb_spec k' k) as [-> | Hk]; simpl.
    + destruct (String.eqb k name); reflexivity.
    + destruct (String.eqb_spec k' name) as [-> | Hname].
      * apply String.eqb_neq in Hk. rewrite String.eqb_sym in Hk. by rewrite Hk.
      * exact IH.
Qed.

Lemma lookup_set_prop_ne name k v props :
  k <> name -> lookup_prop name (set_prop k v props) = lookup_prop name props.
Proof.
  intros Hne. rewrite lookup_set_prop.
  apply String.eqb_neq in Hne. by rewrite Hne.
Qed.

Lemma prefix_spec needle : forall hay,
  String.prefix needle hay = true <-> exists after, hay = needle +:+ after.
Proof.
  induction needle as [| a needle IH]; intros [| b hay]; simpl.
  - split; [intros _; by exists EmptyString | done].
  - split; [intros _; by exists (String b hay) | done].
  - split; [done | intros [after [=]]].
  - destruct (Ascii.ascii_dec a b) as [<- | Hab].
    + rewrite IH. split; intros [after Heq]; exists after.
      * by rewrite Heq.
      * by injection Heq.
    + split; [done | intros [after [= Heq _]]; congruence].
Qed.

(** [includes] is the substring test. *)
Lemma includes_spec needle hay :
  includes needle hay = true <-> occurs_in needle hay.
Proof.
  unfold occurs_in. induction hay as [| b hay IH].
  - change (includes needle EmptyString)
      with (String.prefix needle EmptyString || false).
    rewrite orb_false_r, prefix_spec. split.
    + intros [after Heq]. by exists EmptyString, after.
    + intros (before & after & Heq).
      destruct before as [| c before]; [by exists after | discriminate].
  - change (includes needle (String b hay))
      with (String.prefix needle (String b hay) || includes needle hay).
    rewrite orb_true_iff, prefix_spec, IH. split.
    + intros [[after Heq] | (before & after & Heq)].
      * by exists EmptyString, after.
      * exists (String b before), after. simpl. by rewrite Heq.
    + intros (before & after & Heq).
      destruct before as [| c before]; [left; by exists after |].
      right. exists before, after. simpl in Heq. by injection Heq.
Qed.

Lemma includes_false needle hay :
  includes needle hay = false <-> ~ occurs_in needle hay.
Proof.
  rewrite <- includes_spec. by destruct (includes needle hay).
Qed.

End JsFacts.

(** ** More on the source gateway *)

Module GatewayMore.
Import Gateway Timescale JsFacts.

Lemma expiry_after (a b : Z) :
  a + 5000 <= b -> (inject_Z a + 5 * 1000 <= inject_Z b)%Q.
Proof.
  intros Hle. apply CacheMore.inject_Z_le in Hle.
  rewrite inject_Z_plus in Hle. change (inject_Z 5000) with 5000%Q in Hle. lra.
Qed.

Lemma expiry_before (a b : Z) :
  b < a + 5000 -> (inject_Z b < inject_Z a + 5 * 1000)%Q.
Proof.
  intros Hlt. rewrite Zlt_Qlt in Hlt.
  rewrite inject_Z_plus in Hlt. change (inject_Z 5000) with 5000%Q in Hlt. lra.
Qed.

Section Metrics.

Context {platform : Platform} (md : MarketData).

Lemma fetchRealTimeMetrics_miss now (c : Cache.store) :
  truthy (fst (Cache.getCache cacheKey now c)) = false ->
  fetchRealTimeMetrics md now c
  = ({| settles_at := now + 12;
        outcome := Fulfilled (VObj (freshMetrics md (now + 12))) |},
     Cache.setCache cacheKey (VObj (freshMetrics md (now + 12))) 5 (now + 12)
       (snd (Cache.getCache cacheKey now c))).
Proof.
  intros Hmiss. unfold fetchRealTimeMetrics.
  destruct (Cache.getCache cacheKey now c) as [cached c1]. simpl in Hmiss.
  by rewrite Hmiss.
Qed.

Lemma fetchStart_value now (c : Cache.store) :
  fst (Await.fetchStart now c)
  = if truthy (fst (Cache.getCache cacheKey now c))
    then Some (fst (Cache.getCache cacheKey now c)) else None.
Proof.
  unfold Await.fetchStart. by destruct (Cache.getCache cacheKey now c).
Qed.

Lemma fetchStart_cache now (c : Cache.store) :
  snd (Await.fetchStart now c) = snd (Cache.getCache cacheKey now c).
Proof.
  unfold Await.fetchStart. by destruct (Cache.getCache cacheKey now c).
Qed.

(** After a miss no reading of the clock finds a value: the entry is gone,
    or it holds a value the call does not take for one. *)
Lemma missed_stays_missed now now2 (c : Cache.store) :
  fst (Await.fetchStart now c) = None ->
  fst (Await.fetchStart now2 (snd (Await.fetchStart now c))) = None.
Proof.
  rewrite fetchStart_cache, !fetchStart_value, !CacheMore.getCache_value.
  unfold Cache.getCache.
  destruct (c !! cacheKey) as [e |] eqn:He; simpl.
  - destruct (Cache.before now e); simpl.
    + rewrite He. destruct (truthy (Cache.data e)) eqn:Hdata; [discriminate |].
      intros _. destruct (Cache.before now2 e); simpl; by rewrite ?Hdata.
    + intros _. by rewrite lookup_delete_eq.
  - intros _. by rewrite He.
Qed.

(** X5. After a miss, the metrics are in the cache only from the moment the
    waiting call resumes and stores them: a call that starts on the cache as
    the miss left it, during the wait, misses as well. Once they are stored,
    at [later], a call at a clock reading from [later] up to but not including
    [later + 5000] returns the very same metrics at once and leaves the cache
    as it is, and a call at [later + 5000] or after misses again. [fetchRealTimeMetrics] is the miss
    followed by the store 12 ms later. *)
Theorem metrics_cached_from_store now later (c : Cache.store) :
  fst (Await.fetchStart now c) = None ->
  let waiting := snd (Await.fetchStart now c) in
  let stored := Await.fetchResume md later waiting in
  (forall now2, fst (Await.fetchStart now2 waiting) = None)
  /\ (forall now2, later <= now2 < later + 5000 ->
        Await.fetchStart now2 (snd stored) = (Some (fst stored), snd stored))
  /\ (forall now2, later + 5000 <= now2 ->
        fst (Await.fetchStart now2 (snd stored)) = None)
  /\ fetchRealTimeMetrics md now c
     = ({| settles_at := now + 12;
           outcome := Fulfilled (fst (Await.fetchResume md (now + 12) waiting)) |},
        snd (Await.fetchResume md (now + 12) waiting)).
Proof.
  intros Hmiss waiting stored. split; [| split; [| split]].
  - intros now2. by apply missed_stays_missed.
  - intros now2 [_ Hin]. unfold stored, Await.fetchResume, Await.fetchStart. simpl.
    rewrite CacheSpec.getCache_fresh by (by apply expiry_before).
    reflexivity.
  - intros now2 Hout. unfold stored, Await.fetchResume. simpl.
    rewrite fetchStart_value.
    rewrite CacheSpec.getCache_expired by (by apply expiry_after).
    reflexivity.
  - rewrite fetchStart_value in Hmiss.
    rewrite fetchRealTimeMetrics_miss.
    + unfold waiting. by rewrite fetchStart_cache.
    + by destruct (truthy (fst (Cache.getCache cacheKey now c))).
Qed.

(** X6. The metrics built on a miss carry the instant of the answer as
    [timestamp] and, apart from [valueAtRisk], [sharpeRatio], [portfolioValue]
    and [timestamp], every property of [marketData.realTimeMetrics]
    unchanged. *)
Theorem fresh_metrics_keep_base now (c : Cache.store) :
  truthy (fst (Cache.getCache cacheKey now c)) = false ->
  exists props,
    outcome (fst (fetchRealTimeMetrics md now c)) = Fulfilled (VObj props)
    /\ lookup_prop "timestamp" props = VStr (toISOString (now + 12))
    /\ forall name,
         name ∉ ["valueAtRisk"; "sharpeRatio"; "portfolioValue"; "timestamp"] ->
         lookup_prop name props
         = lookup_prop name (marketData.realTimeMetrics md).
Proof.
  intros Hmiss. rewrite (fetchRealTimeMetrics_miss now c Hmiss). simpl.
  exists (freshMetrics md (now + 12)). split; [reflexivity |].
  unfold freshMetrics. split.
  - by rewrite lookup_set_prop.
  - intros name Hname.
    rewrite !lookup_set_prop_ne; [reflexivity | | | |];
      intros <-; apply Hname; set_solver.
Qed.

End Metrics.

(** A miss at 0 on the empty cache, stored at 12: a call at 5 misses, a call
    at 3000 is served from the cache, a call at 5012 misses. *)
Lemma metrics_cached_from_store_witness :
  fst (Await.fetchStart 5 (snd (Await.fetchStart 0 ∅))) = None
  /\ fst (Await.fetchStart 3000
            (snd (Await.fetchResume (platform := Scenario.plain_platform)
                    Scenario.no_market_data 12 (snd (Await.fetchStart 0 ∅)))))
     = Some (fst (Await.fetchResume (platform := Scenario.plain_platform)
                    Scenario.no_market_data 12 (snd (Await.fetchStart 0 ∅))))
  /\ fst (Await.fetchStart 5012
            (snd (Await.fetchResume (platform := Scenario.plain_platform)
                    Scenario.no_market_data 12 (snd (Await.fetchStart 0 ∅)))))
     = None.
Proof.
  assert (fst (Await.fetchStart 0 ∅) = None) as Hmiss by reflexivity.
  destruct (metrics_cached_from_store (platform := Scenario.plain_platform)
              Scenario.no_market_data 0 12 ∅ Hmiss)
    as (Hwait & Hhit & Hlate & _).
  split; [apply Hwait |]. split.
  - rewrite Hhit; [reflexivity | lia].
  - apply Hlate. lia.
Defined.

Lemma fresh_metrics_keep_base_witness :
  exists props,
    outcome (fst (fetchRealTimeMetrics (platform := Scenario.plain_platform)
                    Scenario.no_market_data 0 ∅))
    = Fulfilled (VObj props)
    /\ lookup_prop "timestamp" props = VStr "12".
Proof.
  assert (truthy (fst (Cache.getCache cacheKey 0 ∅)) = false) as Hmiss
    by reflexivity.
  destruct (fresh_metrics_keep_base (platform := Scenario.plain_platform)
              Scenario.no_market_data 0 ∅ Hmiss)
    as (props & Hprops & Hstamp & _).
  exists props. split; [exact Hprops | exact Hstamp].
Defined.

End GatewayMore.

(** ** Queries, probes and the join *)

Module QueriesMore.
Import Gateway JsFacts.

Section Queries.

Context {platform : Platform} (md : MarketData).

(** X7. A query whose text contains [varHistory] is answered, 8 ms later,
    with one row per row of [marketData.varHistoryData], in the same order;
    in each row every property other than [var] is that of the data. This
    branch is taken whatever else the text contains. *)
Theorem varHistory_query query now :
  occurs_in "varHistory" query ->
  exists rows,
    executeGraphQLQuery md query now
    = {| settles_at := now + 8;
         outcome := Fulfilled
           (VObj [("data", VObj [("varHistory", VArr (map VObj rows))])]) |}
    /\ length rows = length (marketData.varHistoryData md)
    /\ forall i item,
         marketData.varHistoryData md !! i = Some item ->
         exists row,
           rows !! i = Some row
           /\ forall name, name <> "var" ->
                lookup_prop name row = lookup_prop name item.
Proof.
  intros Hin. apply includes_spec in Hin.
  exists (map (fun item => set_prop "var" (jitter (lookup_prop "var" item) 50000) item)
            (marketData.varHistoryData md)).
  split; [| split].
  - unfold executeGraphQLQuery. rewrite Hin. by rewrite map_map.
  - apply length_map.
  - intros i item Hitem. eexists. split.
    + rewrite list_lookup_fmap, Hitem. reflexivity.
    + intros name Hname. apply lookup_set_prop_ne. congruence.
Qed.

(** X8. A query that contains [sectorExposure] and not [varHistory] is
    answered with one row per sector, in order; each row has the instant of
    the answer as [lastUpdated], and every property other than [exposure] and
    [lastUpdated] is that of the data. *)
Theorem sectorExposure_query query now :
  ~ occurs_in "varHistory" query ->
  occurs_in "sectorExposure" query ->
  exists rows,
    executeGraphQLQuery md query now
    = {| settles_at := now + 8;
         outcome := Fulfilled
           (VObj [("data", VObj [("sectorExposure", VArr (map VObj rows))])]) |}
    /\ length rows = length (marketData.sectorExposure md)
    /\ forall i sector,
         marketData.sectorExposure md !! i = Some sector ->
         exists row,
           rows !! i = Some row
           /\ lookup_prop "lastUpdated" row = VStr (toISOString (now + 8))
           /\ forall name, name <> "exposure" -> name <> "lastUpdated" ->
                lookup_prop name row = lookup_prop name sector.
Proof.
  intros Hnot Hin. apply includes_false in Hnot. apply includes_spec in Hin.
  exists (map (fun sector =>
                 set_prop "lastUpdated" (VStr (toISOString (now + 8)))
                   (set_prop "exposure"
                      (jitter (lookup_prop "exposure" sector) 2) sector))
            (marketData.sectorExposure md)).
  split; [| split].
  - unfold executeGraphQLQuery. rewrite Hnot, Hin. by rewrite map_map.
  - apply length_map.
  - intros i sector Hsector. eexists. split.
    + rewrite list_lookup_fmap, Hsector. reflexivity.
    + split; [by rewrite lookup_set_prop |].
      intros name Hexposure Hupdated.
      rewrite !lookup_set_prop_ne; [reflexivity | |]; congruence.
Qed.

(** X9. [executeGraphQLQuery] never rejects, and a query that mentions
    neither [varHistory] nor [sectorExposure] is answered with
    [{ data: null }]. *)
Theorem unknown_query query now :
  is_rejected (outcome (executeGraphQLQuery md query now)) = false
  /\ (~ occurs_in "varHistory" query ->
      ~ occurs_in "sectorExposure" query ->
      executeGraphQLQuery md query now
      = {| settles_at := now + 8;
           outcome := Fulfilled (VObj [("data", VNull)]) |}).
Proof.
  split; [reflexivity |].
  intros Hvar Hsector.
  apply includes_false in Hvar. apply includes_false in Hsector.
  unfold executeGraphQLQuery. by rewrite Hvar, Hsector.
Qed.

(** X10. [queryTimescaleDB] always resolves, 15 ms later, with an array: the
    empty array when the statement names none of the three tables, and all the
    risk alerts, whatever their status, when it names [risk_alerts] and not
    [var_history]. *)
Theorem timescale_array sql now :
  exists rows,
    Timescale.queryTimescaleDB md sql now
    = {| settles_at := now + 15; outcome := Fulfilled (VArr rows) |}
    /\ (~ occurs_in "var_history" sql ->
        ~ occurs_in "risk_alerts" sql ->
        ~ occurs_in "portfolio_snapshots" sql ->
        rows = [])
    /\ (~ occurs_in "var_history" sql ->
        occurs_in "risk_alerts" sql ->
        rows = map VObj (marketData.riskAlerts md)).
Proof.
  unfold Timescale.queryTimescaleDB.
  destruct (includes "var_history" sql) eqn:Hvar.
  { eexists. split; [reflexivity |].
    apply includes_spec in Hvar. split; intros Hnot; contradiction. }
  destruct (includes "risk_alerts" sql) eqn:Halerts.
  { eexists. split; [reflexivity |].
    apply includes_spec in Halerts. split; [intros _ Hnot; contradiction | done]. }
  apply includes_false in Halerts.
  destruct (includes "portfolio_snapshots" sql) eqn:Hport.
  { eexists. split; [reflexivity |].
    apply includes_spec in Hport.
    split; [intros _ _ Hnot; contradiction | intros _ Hin; contradiction]. }
  eexists. split; [reflexivity |].
  split; [done | intros _ Hin; contradiction].
Qed.

(** X11. [healthCheck] always resolves, with the four probes in the order
    FastAPI, GraphQL, TimescaleDB, Redis, each [UP] or [DOWN]; it resolves no
    earlier than the slowest probe, [lastChecked] is that instant, and every
    other property of [marketData.systemHealth] is passed on unchanged. *)
Theorem healthCheck_report now :
  exists props checks,
    outcome (healthCheck md now) = Fulfilled (VObj props)
    /\ lookup_prop "services" props = VArr checks
    /\ map (get_opt "service") checks
       = [VStr "FastAPI"; VStr "GraphQL"; VStr "TimescaleDB"; VStr "Redis"]
    /\ Forall (fun check => get_opt "status" check = VStr "UP"
                            \/ get_opt "status" check = VStr "DOWN") checks
    /\ lookup_prop "lastChecked" props
       = VStr (toISOString (settles_at (healthCheck md now)))
    /\ Forall (fun service =>
                 now + pingLatency service <= settles_at (healthCheck md now))
         ["FastAPI"; "GraphQL"; "TimescaleDB"; "Redis"]
    /\ forall name, name <> "services" -> name <> "lastChecked" ->
         lookup_prop name props
         = lookup_prop name (marketData.systemHealth md).
Proof.
  eexists. eexists. split; [reflexivity |].
  split; [by rewrite lookup_set_prop |].
  split; [reflexivity |].
  split.
  { repeat match goal with |- Forall _ _ => constructor end;
      unfold get_opt; simpl;
      match goal with |- context [pingUp ?s] => destruct (pingUp s) end; auto. }
  split; [by rewrite !lookup_set_prop |].
  split.
  { simpl. repeat match goal with |- Forall _ _ => constructor end; lia. }
  intros name Hservices Hchecked.
  rewrite !lookup_set_prop_ne; [reflexivity | |]; congruence.
Qed.

End Queries.

Lemma varHistory_query_witness :
  exists rows,
    executeGraphQLQuery (platform := Scenario.plain_platform)
      Scenario.no_market_data "query { varHistory sectorExposure }" 0
    = {| settles_at := 8;
         outcome := Fulfilled
           (VObj [("data", VObj [("varHistory", VArr (map VObj rows))])]) |}.
Proof.
  destruct (varHistory_query (platform := Scenario.plain_platform)
              Scenario.no_market_data "query { varHistory sectorExposure }" 0)
    as (rows & Hrows & _).
  { apply includes_spec. reflexivity. }
  exists rows. exact Hrows.
Defined.

Lemma sectorExposure_query_witness :
  exists rows,
    executeGraphQLQuery (platform := Scenario.plain_platform)
      Scenario.no_market_data "query { sectorExposure }" 0
    = {| settles_at := 8;
         outcome := Fulfilled
           (VObj [("data", VObj [("sectorExposure", VArr (map VObj rows))])]) |}.
Proof.
  destruct (sectorExposure_query (platform := Scenario.plain_platform)
              Scenario.no_market_data "query { sectorExposure }" 0)
    as (rows & Hrows & _).
  { apply includes_false. reflexivity. }
  { apply includes_spec. reflexivity. }
  exists rows. exact Hrows.
Defined.

End QueriesMore.

(** ** The join of [getAllDashboardData] *)

Module JoinMore.
Import Gateway.

Lemma earliest_rejection_None (ps : list promise) :
  earliest_rejection ps = None ->
  Forall2 (fun p v => outcome p = Fulfilled v) ps (map fulfilment ps).
Proof.
  induction ps as [| p ps IH]; simpl; [constructor |].
  unfold fulfilment at 1.
  destruct (outcome p) as [v | r] eqn:Hp.
  - intros Hrest. constructor; [exact Hp | by apply IH].
  - destruct (earliest_rejection ps) as [[t' r'] |]; [| discriminate].
    by destruct (t' <? settles_at p).
Qed.

(** [Promise.all] fulfils exactly when every member does, with the members'
    values in the order of the members. *)
Lemma Promise_all_fulfils_iff (ps : list promise) (vs : list value) :
  Promise_all ps = Fulfilled vs
  <-> Forall2 (fun p v => outcome p = Fulfilled v) ps vs.
Proof.
  split; [| apply GatewaySpec.Promise_all_fulfilled].
  unfold Promise_all.
  destruct (earliest_rejection ps) as [[t r] |] eqn:Hfirst; [discriminate |].
  intros [= <-]. by apply earliest_rejection_None.
Qed.

Lemma get_rejects_iff name v : is_rejected (get name v) = nullish v.
Proof. by destruct v. Qed.

(** X12. [getAllDashboardData] succeeds exactly when its six calls all
    resolve and none of the two query results and the two lambda results is
    itself [null] or [undefined]: such a result is not defaulted to an empty
    array but makes the whole load fail with a [TypeError]. *)
Theorem assemble_fulfils_iff (members : list promise) :
  is_rejected (assemble members) = false
  <-> exists values,
        Forall2 (fun p v => outcome p = Fulfilled v) members values
        /\ nullish (element 1 values) = false
        /\ nullish (element 2 values) = false
        /\ nullish (element 3 values) = false
        /\ nullish (element 4 values) = false.
Proof.
  unfold assemble. split.
  - destruct (Promise_all members) as [values |] eqn:Hall; [| discriminate].
    apply Promise_all_fulfils_iff in Hall.
    pose proof (get_rejects_iff "data" (element 1 values)) as H1.
    pose proof (get_rejects_iff "data" (element 2 values)) as H2.
    pose proof (get_rejects_iff "body" (element 3 values)) as H3.
    pose proof (get_rejects_iff "body" (element 4 values)) as H4.
    destruct (get "data" (element 1 values)); [| discriminate].
    destruct (get "data" (element 2 values)); [| discriminate].
    destruct (get "body" (element 3 values)); [| discriminate].
    destruct (get "body" (element 4 values)); [| discriminate].
    intros _. exists values. by repeat split.
  - intros (values & Hall & H1 & H2 & H3 & H4).
    apply Promise_all_fulfils_iff in Hall. rewrite Hall.
    rewrite <- get_rejects_iff with (name := "data") in H1, H2.
    rewrite <- get_rejects_iff with (name := "body") in H3, H4.
    destruct (get "data" (element 1 values)); [| discriminate].
    destruct (get "data" (element 2 values)); [| discriminate].
    destruct (get "body" (element 3 values)); [| discriminate].
    destruct (get "body" (element 4 values)); [| discriminate].
    reflexivity.
Qed.

(** All six calls resolve, the time-series query with [null]: the load fails,
    and the message is that of the [TypeError]. *)
Lemma null_result_fails_load :
  assemble
    (map (Scenario.settles 0)
       [Fulfilled (VObj []); Fulfilled VNull;
        Fulfilled (VObj [("data", VNull)]); Fulfilled (VObj []);
        Fulfilled (VObj []); Fulfilled (VObj [])])
  = Rejected (VError "Cannot read properties of null (reading 'data')").
Proof. vm_compute. reflexivity. Qed.

Lemma earliest_rejection_at (ps : list promise) : forall t r,
  earliest_rejection ps = Some (t, r) ->
  exists q, q ∈ ps /\ outcome q = Rejected r /\ settles_at q = t.
Proof.
  induction ps as [| a ps IH]; intros t r Hfirst; [discriminate |].
  simpl in Hfirst. destruct (outcome a) as [v | ra] eqn:Ha.
  - destruct (IH _ _ Hfirst) as (q & Hq & Hr & Ht).
    exists q. split; [by right | done].
  - destruct (earliest_rejection ps) as [[t' r'] |].
    + destruct (t' <? settles_at a); injection Hfirst as <- <-.
      * destruct (IH _ _ eq_refl) as (q & Hq & Hr & Ht).
        exists q. split; [by right | done].
      * exists a. split; [by left | done].
    + injection Hfirst as <- <-. exists a. split; [by left | done].
Qed.

Lemma earliest_rejection_head p reason (later : list promise) :
  outcome p = Rejected reason ->
  Forall (fun q => is_rejected (outcome q) = true ->
                   settles_at p <= settles_at q) later ->
  earliest_rejection (p :: later) = Some (settles_at p, reason).
Proof.
  intros Hp Hlater. simpl. rewrite Hp.
  destruct (earliest_rejection later) as [[t' r'] |] eqn:Hfirst; [| done].
  destruct (earliest_rejection_at _ _ _ Hfirst) as (q & Hq & Hr & <-).
  rewrite Forall_forall in Hlater. specialize (Hlater q Hq).
  rewrite Hr in Hlater. specialize (Hlater eq_refl).
  destruct (settles_at q <? settles_at p) eqn:Hlt; [lia | done].
Qed.

(** X13. The load fails with the reason of the call that rejected first: a
    rejected member wins over every rejected member that settles later, and,
    at the same instant, over those that come after it in the array. *)
Theorem first_rejection_wins (earlier later : list promise) p reason :
  outcome p = Rejected reason ->
  Forall (fun q => is_rejected (outcome q) = true ->
                   settles_at p < settles_at q) earlier ->
  Forall (fun q => is_rejected (outcome q) = true ->
                   settles_at p <= settles_at q) later ->
  assemble (earlier ++ p :: later) = Rejected reason.
Proof.
  intros Hp Hearlier Hlater.
  assert (earliest_rejection (earlier ++ p :: later)
          = Some (settles_at p, reason)) as Hfirst.
  { induction Hearlier as [| a earlier Ha _ IH]; simpl.
    - by apply earliest_rejection_head.
    - rewrite IH. destruct (outcome a) as [v | ra]; [done |].
      specialize (Ha eq_refl).
      destruct (settles_at p <? settles_at a) eqn:Hlt; [done | lia]. }
  unfold assemble, Promise_all. by rewrite Hfirst.
Qed.

(** The breakdown call rejects at 5 ms, the time-series query at 8 ms: the
    load fails with the reason of the former, although it comes later in the
    array. *)
Lemma first_rejection_wins_witness :
  assemble
    ([Scenario.settles 12 (Fulfilled (VObj []));
      Scenario.settles 8 (Rejected (VError "query timeout"));
      Scenario.settles 8 (Fulfilled (VObj []));
      Scenario.settles 5 (Fulfilled (VObj []))]
     ++ Scenario.settles 5 (Rejected (VError "lambda down"))
        :: [Scenario.settles 25 (Fulfilled (VObj []))])
  = Rejected (VError "lambda down").
Proof.
  apply first_rejection_wins; [reflexivity | |];
    repeat match goal with |- Forall _ _ => constructor end;
    simpl; intros; try discriminate; lia.
Defined.

End JoinMore.

(** ** More on the bus and the market stream *)

Module BusMore.
Import Bus.

Section Grow.

Context {W : Type} {platform : Platform} {callbacks : Callbacks W}.

Lemma forEach_grows t m t' : forall remaining k ls (w : W),
  registered ls t'
  `prefix_of` registered (after_listeners (forEach remaining k t m ls w)) t'.
Proof.
  induction remaining as [| remaining IH]; intros k ls w; simpl; [done |].
  destruct (registered ls t !! k) as [cb |]; [| apply IH].
  destruct (run cb m w) as [w' r].
  destruct (thrown r) as [reason |]; simpl.
  - apply BusSpec.registered_subscribe_all.
  - etrans; [apply BusSpec.registered_subscribe_all | apply IH].
Qed.

(** X14. A publish never removes or reorders a listener, of any topic: what
    was registered before is an initial segment of what is registered after.
    On a topic for which nothing is registered it calls nobody and changes
    nothing. *)
Theorem publish_keeps_listeners t d now ls (w : W) :
  (forall t',
     registered ls t'
     `prefix_of` registered (after_listeners (emitKafkaEvent t d now ls w)) t')
  /\ (registered ls t = [] ->
      emitKafkaEvent t d now ls w
      = {| deliveries := []; after_listeners := ls; after_world := w;
           completion := None |}).
Proof.
  split.
  - intros t'. unfold emitKafkaEvent. apply forEach_grows.
  - intros Hnone. unfold emitKafkaEvent. by rewrite Hnone.
Qed.

End Grow.

(** Callback 1 registers callback 3 while [{a:1}] is delivered: 1 and 2 are
    still the first two listeners afterwards. *)
Lemma publish_keeps_listeners_witness :
  [1; 2]%nat
  `prefix_of`
  registered
    (after_listeners
       (emitKafkaEvent (platform := Scenario.plain_platform)
          (callbacks := Scenario.quiet_callbacks)
          "t" (VObj [("a", VNum 1)]) 0 Scenario.two_on_t tt)) "t".
Proof.
  exact (proj1 (publish_keeps_listeners (platform := Scenario.plain_platform)
                  (callbacks := Scenario.quiet_callbacks)
                  "t" (VObj [("a", VNum 1)]) 0 Scenario.two_on_t tt) "t").
Defined.

Section Events.

Import Stream.

Context {platform : Platform}.

Lemma floor_bounds (r : Q) (n : Z) :
  (0 <= r)%Q -> (r < 1)%Q -> 0 < n ->
  0 <= Qfloor (r * inject_Z n) < n.
Proof.
  intros H0 H1 Hn.
  assert (0 < inject_Z n)%Q as Hn' by (by rewrite (Zlt_Qlt 0 n) in Hn).
  assert (0 <= r * inject_Z n)%Q as Hlow by (by apply Qmult_le_0_compat; [| apply Qlt_le_weak]).
  assert (r * inject_Z n < inject_Z n)%Q as Hhigh.
  { generalize dependent (inject_Z n). intros x Hx _. nra. }
  split.
  - change 0 with (Qfloor (inject_Z 0)). by apply Qfloor_resp_le.
  - rewrite Zlt_Qlt. eapply Qle_lt_trans; [apply Qfloor_le | exact Hhigh].
Qed.

(** X15. For draws in [0, 1) the event built by the stream always carries one
    of the eight symbols (never [undefined]), a price from 100 to 1100, and a
    whole volume from 0 to 99999. *)
Theorem market_event_bounds (rSymbol rPrice rVolume : Q) now :
  (0 <= rSymbol)%Q -> (rSymbol < 1)%Q ->
  (0 <= rPrice)%Q -> (rPrice < 1)%Q ->
  (0 <= rVolume)%Q -> (rVolume < 1)%Q ->
  exists symbol price volume,
    marketEvent rSymbol rPrice rVolume now
    = VObj [("symbol", VStr symbol);
            ("price", VNum price);
            ("volume", VNum (inject_Z volume));
            ("timestamp", VStr (toISOString now))]
    /\ symbol ∈ symbols
    /\ (100 <= price)%Q /\ (price <= 1100)%Q
    /\ 0 <= volume < 100000.
Proof.
  intros Hs0 Hs1 Hp0 Hp1 Hv0 Hv1.
  pose proof (floor_bounds rSymbol 8 Hs0 Hs1 eq_refl) as Hi.
  pose proof (floor_bounds rVolume 100000 Hv0 Hv1 eq_refl) as Hv.
  unfold marketEvent, getRandomSymbol.
  change (inject_Z (Z.of_nat (length symbols))) with (inject_Z 8).
  change (rVolume * 100000)%Q with (rVolume * inject_Z 100000)%Q.
  set (i := Qfloor (rSymbol * inject_Z 8)) in *.
  destruct (i <? 0) eqn:Hneg; [lia |].
  assert (exists n, (n < 8)%nat /\ Z.to_nat i = n) as (n & Hn & ->)
    by (exists (Z.to_nat i); lia).
  assert (is_Some (symbols !! n)) as [symbol Hsymbol]
    by (by apply lookup_lt_is_Some).
  rewrite Hsymbol. eexists symbol, _, _. split; [reflexivity |].
  split; [by eapply list_elem_of_lookup_2 |].
  split; [lra |]. split; [lra | exact Hv].
Qed.

End Events.

Lemma market_event_bounds_witness :
  exists symbol price volume,
    Stream.marketEvent (platform := Scenario.plain_platform)
      (999 # 1000) (1 # 2) (1 # 3) 0
    = VObj [("symbol", VStr symbol);
            ("price", VNum price);
            ("volume", VNum (inject_Z volume));
            ("timestamp", VStr "0")]
    /\ symbol ∈ Stream.symbols.
Proof.
  destruct (market_event_bounds (platform := Scenario.plain_platform)
              (999 # 1000) (1 # 2) (1 # 3) 0)
    as (symbol & price & volume & Hevent & Hsymbol & _);
    try (vm_compute; first [reflexivity | discriminate]).
  exists symbol, price, volume. split; [exact Hevent | exact Hsymbol].
Defined.

End BusMore.

(** ** More on the dashboard hook *)

Module HookMore.
Import Hook Loops JsFacts.

(** X16. However the call settles, [loadData] and [refreshData] end in the
    same state, with [loading] cleared; [error] is set exactly when the load
    failed and [isRealTimeConnected] exactly when it succeeded, so a
    successful retry clears the error of an earlier failure. Success stores
    the data and the instant; failure leaves both as they were. *)
Theorem load_settles (dashboardData : settled DashboardData) now s :
  let s' := refreshData dashboardData now s in
  loadData dashboardData now s = s'
  /\ loading s' = false
  /\ isRealTimeConnected s' = negb (is_rejected dashboardData)
  /\ (error s' = None <-> is_rejected dashboardData = false)
  /\ (forall d, dashboardData = Fulfilled d ->
        data s' = Some d /\ lastUpdated s' = Some now)
  /\ (is_rejected dashboardData = true ->
        data s' = data s /\ lastUpdated s' = lastUpdated s).
Proof.
  destruct dashboardData as [d | err]; simpl.
  - split; [reflexivity |]. split; [reflexivity |]. split; [reflexivity |].
    split; [done |]. split; [| discriminate].
    intros d' [= <-]. by split.
  - split; [reflexivity |]. split; [reflexivity |]. split; [reflexivity |].
    split; [done |]. split; [discriminate |]. by intros _.
Qed.

Section Alerts.

Context {platform : Platform}.

(** What a burst leaves of the snapshot: everything but the alerts as it
    was, and the first nine alerts as if nothing had been dropped. *)
Lemma onRiskAlerts_invariant events s d :
  data s = Some d ->
  exists d',
    data (onRiskAlerts events s) = Some d'
    /\ metrics d' = metrics d
    /\ varHistory d' = varHistory d
    /\ sectorExposure d' = sectorExposure d
    /\ portfolioBreakdown d' = portfolioBreakdown d
    /\ systemHealth d' = systemHealth d
    /\ take 9 (riskAlerts d')
       = take 9 (rev (map alertOf events) ++ riskAlerts d).
Proof.
  intros Hd. induction events as [| e events IH] using rev_ind.
  - exists d. by repeat split.
  - destruct IH as (d1 & Hd1 & Hm & Hv & Hs & Hp & Hh & Halerts).
    rewrite HookSpec.onRiskAlerts_snoc. unfold onRiskAlert at 1. simpl.
    rewrite Hd1. eexists. split; [reflexivity |]. simpl.
    repeat (split; [done |]).
    rewrite map_app, rev_app_distr. simpl.
    change (take 9 (?x :: ?l)) with (x :: take 8 l).
    f_equal. rewrite take_take.
    change (take 8 ?l) with (take (8 `min` 9) l).
    rewrite <- !take_take. by rewrite Halerts.
Qed.

(** After at least one application of the alert updater the list holds the
    ten most recent records, newest first: the records of the applications in
    reverse order followed by the alerts held before, cut after the tenth. All
    the other fields of the snapshot are as before. *)
Theorem alerts_newest_first events e s d :
  data s = Some d ->
  exists d',
    data (onRiskAlerts (events ++ [e]) s) = Some d'
    /\ riskAlerts d'
       = take 10 (rev (map alertOf (events ++ [e])) ++ riskAlerts d)
    /\ metrics d' = metrics d
    /\ varHistory d' = varHistory d
    /\ sectorExposure d' = sectorExposure d
    /\ portfolioBreakdown d' = portfolioBreakdown d
    /\ systemHealth d' = systemHealth d.
Proof.
  intros Hd.
  destruct (onRiskAlerts_invariant events s d Hd)
    as (d1 & Hd1 & Hm & Hv & Hs & Hp & Hh & Halerts).
  rewrite HookSpec.onRiskAlerts_snoc. unfold onRiskAlert at 1. simpl.
  rewrite Hd1. eexists. split; [reflexivity |]. simpl.
  split; [| by repeat split].
  rewrite map_app, rev_app_distr. simpl.
  change (take 10 (?x :: ?l)) with (x :: take 9 l).
  f_equal. exact Halerts.
Qed.

(** X18. The loops patch disjoint fields and therefore commute: a metrics
    tick, a health tick and an alert event, in either order, leave the same
    state, whether the calls succeed or fail. On one field the last write
    wins: a successful metrics tick erases the effect of any metrics tick
    before it. *)
Theorem loops_commute (newMetrics earlier health : settled value)
  (m : value) payload t t0 t' s :
  metricsTick newMetrics t (healthTick health s)
  = healthTick health (metricsTick newMetrics t s)
  /\ metricsTick newMetrics t (onRiskAlert payload t' s)
     = onRiskAlert payload t' (metricsTick newMetrics t s)
  /\ healthTick health (onRiskAlert payload t' s)
     = onRiskAlert payload t' (healthTick health s)
  /\ metricsTick (Fulfilled m) t (metricsTick earlier t0 s)
     = metricsTick (Fulfilled m) t s.
Proof.
  destruct s as [[d |] l e u c];
    destruct newMetrics, health, earlier; repeat split; reflexivity.
Qed.

End Alerts.

(** Twelve applications on a snapshot that holds no alert: the list ends up
    with ten records. *)
Lemma alerts_newest_first_witness :
  (length <$>
     (riskAlerts <$>
        data (onRiskAlerts (platform := Scenario.plain_platform)
                (map (fun n => ([("symbol", VStr "TSLA")], n))
                   [1; 2; 3; 4; 5; 6; 7; 8; 9; 10; 11]
                 ++ [([("symbol", VStr "NVDA")], 12)])
                Scenario.loaded)))
  = Some 10%nat.
Proof.
  destruct (alerts_newest_first (platform := Scenario.plain_platform)
              (map (fun n => ([("symbol", VStr "TSLA")], n))
                 [1; 2; 3; 4; 5; 6; 7; 8; 9; 10; 11])
              ([("symbol", VStr "NVDA")], 12)
              Scenario.loaded Scenario.no_alerts eq_refl)
    as (d' & Hdata & Halerts & _).
  rewrite Hdata. simpl. rewrite Halerts. reflexivity.
Defined.

(** X19. A connection check never touches the data, the error, the loading
    flag or the instant of the last update; it reports "connected" exactly
    when its draw exceeds 0.02, whatever the state of the last load; it sets
    the reconnection timer exactly when it reports "disconnected", and once
    that timer has fired the hook reports "connected" again. *)
Theorem connection_check (r : Q) s :
  let '(s', timer) := connectionCheck r s in
  data s' = data s /\ error s' = error s /\ loading s' = loading s
  /\ lastUpdated s' = lastUpdated s
  /\ (isRealTimeConnected s' = true <-> (2 # 100 < r)%Q)
  /\ timer = negb (isRealTimeConnected s')
  /\ isRealTimeConnected (if timer then reconnect s' else s') = true.
Proof.
  unfold connectionCheck, isConnected. simpl.
  destruct (Qlt_le_dec (2 # 100) r) as [Hlt | Hle]; simpl.
  - repeat split; done.
  - repeat split; try done.
    intros Hlt. exfalso. apply (Qle_not_lt _ _ Hle Hlt).
Qed.

Lemma rerunEffect_step d c o :
  intervals o = threeIntervals ->
  intervals (rerunEffect d c o) = threeIntervals
  /\ Bus.registered (bus (rerunEffect d c o)) "risk_alerts"
     = Bus.registered (bus o) "risk_alerts" ++ [snd c]
  /\ Bus.registered (bus (rerunEffect d c o)) "market_data"
     = Bus.registered (bus o) "market_data" ++ [fst c].
Proof.
  intros Hthree. unfold rerunEffect. simpl. rewrite Hthree.
  split; [reflexivity |].
  rewrite !BusSpec.registered_subscribe.
  repeat case_decide; try discriminate; try done.
  by rewrite !app_nil_r.
Qed.

(** X20. Each new run of the effect clears the three intervals of the run
    before and starts three new ones, so three intervals are running however
    often it reruns; but it adds one listener to each of the two topics and
    removes none, so after [n] reruns [n] more callbacks are registered for
    ['risk_alerts'] and for ['market_data']. *)
Theorem reruns_keep_intervals_leak_listeners d closures : forall o,
  intervals o = threeIntervals ->
  let o' := rerunEffects d closures o in
  intervals o' = threeIntervals
  /\ Bus.registered (bus o') "risk_alerts"
     = Bus.registered (bus o) "risk_alerts" ++ map snd closures
  /\ Bus.registered (bus o') "market_data"
     = Bus.registered (bus o) "market_data" ++ map fst closures.
Proof.
  induction closures as [| c closures IH]; intros o Hthree; simpl.
  - by rewrite !app_nil_r.
  - destruct (rerunEffect_step d c o Hthree) as (Hi & Ha & Hm).
    destruct (IH (rerunEffect d c o) Hi) as (Hi' & Ha' & Hm').
    split; [exact Hi' |]. split.
    + rewrite Ha', Ha. by rewrite <- app_assoc.
    + rewrite Hm', Hm. by rewrite <- app_assoc.
Qed.

Lemma reruns_keep_intervals_leak_listeners_witness :
  let o :=
    effect (Some Scenario.no_alerts) 1%nat 2%nat
      {| intervals := []; bus := ∅ |} in
  Bus.registered
    (bus (rerunEffects Scenario.no_alerts [(3, 4); (5, 6); (7, 8)]%nat o))
    "risk_alerts"
  = Bus.registered (bus o) "risk_alerts" ++ [4; 6; 8]%nat.
Proof.
  exact (proj1 (proj2 (reruns_keep_intervals_leak_listeners Scenario.no_alerts
                         [(3, 4); (5, 6); (7, 8)]%nat
                         (effect (Some Scenario.no_alerts) 1%nat 2%nat
                            {| intervals := []; bus := ∅ |})
                         eq_refl))).
Defined.

Section Market.

Context {platform : Platform}.

(** X21. The updater of the ['market_data'] callback leaves a missing
    snapshot missing and throws a [TypeError] when [metrics] is [null] or
    [undefined]. On an object it replaces [valueAtRisk], [portfolioValue] and
    [timestamp] of [metrics] and keeps every other metric and every other
    field of the snapshot. *)
Theorem market_update (now : Z) (prevData : DashboardData) :
  marketUpdater now None = Fulfilled None
  /\ (nullish (metrics prevData) = true ->
      is_rejected (marketUpdater now (Some prevData)) = true)
  /\ (forall props,
        metrics prevData = VObj props ->
        exists props',
          marketUpdater now (Some prevData)
          = Fulfilled (Some
              {| metrics := VObj props';
                 varHistory := varHistory prevData;
                 sectorExposure := sectorExposure prevData;
                 riskAlerts := riskAlerts prevData;
                 portfolioBreakdown := portfolioBreakdown prevData;
                 systemHealth := systemHealth prevData |})
          /\ lookup_prop "valueAtRisk" props'
             = jitter (lookup_prop "valueAtRisk" props) 50000
          /\ lookup_prop "portfolioValue" props'
             = jitter (lookup_prop "portfolioValue" props) 200000
          /\ lookup_prop "timestamp" props' = VStr (toISOString now)
          /\ forall name,
               name ∉ ["valueAtRisk"; "portfolioValue"; "timestamp"] ->
               lookup_prop name props' = lookup_prop name props).
Proof.
  split; [reflexivity |]. split.
  - unfold marketUpdater. by destruct (metrics prevData).
  - intros props Hprops. unfold marketUpdater. rewrite Hprops. simpl.
    eexists. split; [reflexivity |].
    split; [by rewrite !lookup_set_prop |].
    split; [by rewrite !lookup_set_prop |].
    split; [by rewrite lookup_set_prop |].
    intros name Hname.
    rewrite !lookup_set_prop_ne; [reflexivity | | |];
      intros <-; apply Hname; set_solver.
Qed.

End Market.

End HookMore.

(** ** Subscriptions and the contents of a snapshot *)

Module SnapshotMore.
Import Gateway.

(** X22. [subscribeToKafkaTopic] appends the callback to the end of the list
    of its topic, creating the list for a new topic, and touches no other
    topic; it does not check whether the callback is already registered, so
    subscribing twice registers twice. *)
Theorem subscribe_appends t cb (ls : Bus.listeners) :
  Bus.registered (Bus.subscribeToKafkaTopic t cb ls) t
  = Bus.registered ls t ++ [cb]
  /\ (forall t', t' <> t ->
        Bus.registered (Bus.subscribeToKafkaTopic t cb ls) t'
        = Bus.registered ls t')
  /\ Bus.registered
       (Bus.subscribeToKafkaTopic t cb (Bus.subscribeToKafkaTopic t cb ls)) t
     = Bus.registered ls t ++ [cb; cb].
Proof.
  split; [| split].
  - rewrite BusSpec.registered_subscribe. by case_decide.
  - intros t' Hne. rewrite BusSpec.registered_subscribe.
    case_decide; [congruence | apply app_nil_r].
  - rewrite !BusSpec.registered_subscribe. case_decide; [| done].
    by rewrite <- app_assoc.
Qed.

Section Snapshot.

Context {platform : Platform} (md : MarketData).

(** X23. The snapshot returned by [getAllDashboardData] holds the metrics
    exactly as [fetchRealTimeMetrics] returns them (from the cache on a hit)
    and leaves the cache as that call leaves it; [riskAlerts] holds the
    ['ACTIVE'] alerts only, [portfolioBreakdown] the whole breakdown,
    [varHistory] and [sectorExposure] one row per row of the data, and
    [systemHealth] the report of [healthCheck]. *)
Theorem snapshot_contents now (c : Cache.store) :
  exists d,
    fst (getAllDashboardData md now c) = Fulfilled d
    /\ snd (getAllDashboardData md now c) = snd (fetchRealTimeMetrics md now c)
    /\ outcome (fst (fetchRealTimeMetrics md now c)) = Fulfilled (metrics d)
    /\ riskAlerts d
       = VArr (map VObj (List.filter is_active (marketData.riskAlerts md)))
    /\ portfolioBreakdown d = VArr (marketData.portfolioBreakdown md)
    /\ (exists rows,
          varHistory d = VArr rows
          /\ length rows = length (marketData.varHistoryData md))
    /\ (exists rows,
          sectorExposure d = VArr rows
          /\ length rows = length (marketData.sectorExposure md))
    /\ outcome (healthCheck md now) = Fulfilled (systemHealth d).
Proof.
  unfold getAllDashboardData.
  destruct (GatewaySpec.fetchRealTimeMetrics_fulfilled md now c) as [v0 Hv0].
  destruct (fetchRealTimeMetrics md now c) as [p c']. simpl in Hv0 |- *.
  destruct (GatewaySpec.healthCheck_fulfilled md now) as [v5 Hv5].
  unfold assemble.
  erewrite GatewaySpec.Promise_all_fulfilled.
  2:{ repeat match goal with |- Forall2 _ _ _ => constructor end;
        [exact Hv0 | reflexivity | reflexivity | reflexivity | reflexivity
        | exact Hv5]. }
  unfold executeGraphQLQuery. rewrite GatewaySpec.varHistoryQuery_branch.
  destruct GatewaySpec.sectorExposureQuery_branch as [-> ->].
  simpl. eexists. split; [reflexivity |]. simpl.
  split; [reflexivity |]. split; [exact Hv0 |].
  split; [reflexivity |]. split; [reflexivity |].
  split; [eexists; split; [reflexivity | apply length_map] |].
  split; [eexists; split; [reflexivity | apply length_map] |].
  exact Hv5.
Qed.

End Snapshot.

End SnapshotMore.

(** ** Alert events through the bus *)

Module DeliveryMore.
Import Hook Loops Delivery.

Section Bursts.

Context {platform : Platform}.

(** With the alert closures registered, [forEach] applies the alert updater
    once per callback it reaches, and registers nothing. *)
Lemma forEach_applies t m : forall remaining k (ls : Bus.listeners) s,
  (k + remaining <= length (Bus.registered ls t))%nat ->
  Bus.after_world
    (Bus.forEach (callbacks := alertClosures) remaining k t m ls s)
  = onRiskAlerts (replicate remaining (payloadOf m, Bus.offset m)) s.
Proof.
  induction remaining as [| remaining IH]; intros k ls s Hlen; [done |].
  assert (is_Some (Bus.registered ls t !! k)) as [cb Hcb]
    by (apply lookup_lt_is_Some; lia).
  simpl. rewrite Hcb. simpl. rewrite IH by (simpl; lia). reflexivity.
Qed.

Lemma publishAlert_applies props now (ls : Bus.listeners) s :
  publishAlert props now ls s
  = onRiskAlerts
      (replicate (length (Bus.registered ls "risk_alerts")) (props, now)) s.
Proof.
  unfold publishAlert, Bus.emitKafkaEvent. by rewrite forEach_applies.
Qed.

Lemma publishAlerts_applies burst : forall s,
  publishAlerts burst s = onRiskAlerts (applications burst) s.
Proof.
  induction burst as [| [[props now] ls] burst IH]; intros s; [done |].
  change (publishAlerts ((props, now, ls) :: burst) s)
    with (publishAlerts burst (publishAlert props now ls s)).
  rewrite IH, publishAlert_applies.
  unfold applications, onRiskAlerts. simpl. by rewrite fold_left_app.
Qed.

(** X17. A published alert event is recorded once per listener registered
    for ['risk_alerts'] at that moment, and the effect registers one more at
    each of its runs. After a burst that reaches at least one listener the
    list therefore holds the ten most recent records, newest first, the record
    of an event as many times as it had listeners, followed by the alerts held
    before and cut after the tenth; every other field of the snapshot is as
    before the burst. *)
Theorem alerts_once_per_listener burst s d :
  data s = Some d ->
  applications burst <> [] ->
  publishAlerts burst s = onRiskAlerts (applications burst) s
  /\ exists d',
       data (publishAlerts burst s) = Some d'
       /\ riskAlerts d'
          = take 10 (rev (map alertOf (applications burst)) ++ riskAlerts d)
       /\ metrics d' = metrics d
       /\ varHistory d' = varHistory d
       /\ sectorExposure d' = sectorExposure d
       /\ portfolioBreakdown d' = portfolioBreakdown d
       /\ systemHealth d' = systemHealth d.
Proof.
  intros Hd Hsome. split; [apply publishAlerts_applies |].
  rewrite publishAlerts_applies.
  destruct (applications burst) as [| e events _] using rev_ind; [done |].
  by apply HookMore.alerts_newest_first.
Qed.

End Bursts.

(** One alert event published after the effect has run twice: both listeners
    record it, and the list that was empty holds the record twice. *)
Lemma alerts_once_per_listener_witness :
  exists d',
    data (publishAlerts (platform := Scenario.plain_platform)
            [([("symbol", VStr "TSLA")], 1000, bus Scenario.rerun)]
            Scenario.loaded)
    = Some d'
    /\ riskAlerts d'
       = [newAlert (platform := Scenario.plain_platform)
            [("symbol", VStr "TSLA")] 1000;
          newAlert (platform := Scenario.plain_platform)
            [("symbol", VStr "TSLA")] 1000].
Proof.
  destruct (alerts_once_per_listener (platform := Scenario.plain_platform)
              [([("symbol", VStr "TSLA")], 1000, bus Scenario.rerun)]
              Scenario.loaded Scenario.no_alerts eq_refl)
    as (_ & d' & Hdata & Halerts & _).
  { vm_compute. discriminate. }
  exists d'. split; [exact Hdata |]. rewrite Halerts. vm_compute. reflexivity.
Defined.

End DeliveryMore.
